(** * Event booking backend: the ticket-inventory handlers

    A shallow embedding of the Express handlers of
    [src/controllers/eventController.js] and
    [src/controllers/bookingController.js] together with the Mongoose
    schemas of [models/Event.js] and [models/Booking.js], and of the
    [/api/process-jobs] endpoint of [server.js] with the processors of
    [jobs/jobProcessors.js].

    Conventions of the embedding.
    - A MongoDB collection is a finite map from [_id] to document.
    - Ticket counts are JavaScript Numbers that Joi has checked to be safe
      integers; they are integers [Z] here.  Prices are Numbers that may be
      fractional: their type [Num] and the product [ticketPrice * quantity]
      are parameters of the development.
    - A handler is a function from the store to a response and the next
      store; every [await] of the source has completed when the handler
      returns (one request at a time).  The interleaving of several
      [bookTickets] calls at their [await] points is modelled separately, by
      [book_step] and [run_schedule].
    - An exception inside the [try] block is the answer 500 of the [catch]
      block, with the store as it was when the exception was thrown.
    - [save] runs the validators that the schemas declare ([required],
      [min]) and enforces the unique indexes; the stores that the handlers
      build hold valid documents only ([run_consistent]).
    - The [_id]s of stored documents are ObjectIds.  The handlers are first
      defined on an id that casts to an ObjectId; [findById] on any other
      string throws CastError, which the handlers answer with 500: the
      definitions named [_request] add that cast.  The bookkeeping fields of
      Mongoose ([createdAt], [updatedAt], [__v]) and the populated account
      sub-documents of responses are not represented; accounts are never
      deleted by this API. *)

From stdpp Require Import gmap strings list fin_maps pretty.
From Stdlib Require Import ZArith Lia.

Local Open Scope Z_scope.

Abbreviation ObjectId := string (only parsing).

(** ** Enumerations of the schemas *)

Module EventStatus.
Inductive t := draft | published | cancelled.

#[global] Instance event_status_eq_dec : EqDecision t.
Proof. solve_decision. Defined.

Definition to_string (s : t) : string :=
  match s with
  | draft => "draft"
  | published => "published"
  | cancelled => "cancelled"
  end.

(** [Joi.string().valid('draft', 'published', 'cancelled')] *)
Definition of_string (s : string) : option t :=
  if bool_decide (s = "draft") then Some draft
  else if bool_decide (s = "published") then Some published
  else if bool_decide (s = "cancelled") then Some cancelled
  else None.
End EventStatus.

Module BookingStatus.
Inductive t := pending | confirmed | cancelled.

#[global] Instance booking_status_eq_dec : EqDecision t.
Proof. solve_decision. Defined.
End BookingStatus.

(** ** Joi validation results *)

(** The [type] of the first entry of [error.details]. *)
Inductive JoiError :=
| any_required
| any_only
| string_empty
| number_min
| number_unsafe.

(** [error.details[0]]: the offending key and the kind of failure. *)
Record ValidationError := mkValidationError {
  path : string;
  type_ : JoiError
}.

Definition MAX_SAFE_INTEGER : Z := 9007199254740991.

(** [Joi.string().required()]: present and not the empty string. *)
Definition Joi_string_required (key : string) (v : option string)
  : ValidationError + string :=
  match v with
  | None => inl (mkValidationError key any_required)
  | Some s =>
      if bool_decide (s = "") then inl (mkValidationError key string_empty)
      else inr s
  end.

(** [Joi.string().optional()] *)
Definition Joi_string_optional (key : string) (v : option string)
  : ValidationError + option string :=
  match v with
  | None => inr None
  | Some s =>
      if bool_decide (s = "") then inl (mkValidationError key string_empty)
      else inr (Some s)
  end.

(** [Joi.number().integer().min(1)] on an integer: safe, then at least 1. *)
Definition Joi_integer_min1 (key : string) (n : Z) : ValidationError + Z :=
  if (n <? - MAX_SAFE_INTEGER) || (MAX_SAFE_INTEGER <? n)
  then inl (mkValidationError key number_unsafe)
  else if n <? 1 then inl (mkValidationError key number_min)
  else inr n.

Definition Joi_integer_min1_required (key : string) (v : option Z)
  : ValidationError + Z :=
  match v with
  | None => inl (mkValidationError key any_required)
  | Some n => Joi_integer_min1 key n
  end.

Definition Joi_integer_min1_optional (key : string) (v : option Z)
  : ValidationError + option Z :=
  match v with
  | None => inr None
  | Some n =>
      match Joi_integer_min1 key n with
      | inl e => inl e
      | inr n => inr (Some n)
      end
  end.

(** Validation stops at the first failing key ([abortEarly]). *)
Definition and_then {E A B} (r : E + A) (k : A -> E + B) : E + B :=
  match r with
  | inl e => inl e
  | inr a => k a
  end.

Notation "'check' x <- r ; k" := (and_then r (fun x => k))
  (at level 10, x name, r at level 100, k at level 200).

(** ** The booking request body *)

Record BookingBody := mkBookingBody {
  body_eventId : option string;
  body_quantity : option Z
}.

Record BookingValue := mkBookingValue {
  eventId : ObjectId;
  value_quantity : Z
}.

Definition bookingSchema_validate (body : BookingBody)
  : ValidationError + BookingValue :=
  check eid <- Joi_string_required "eventId" (body_eventId body);
  check q <- Joi_integer_min1_required "quantity" (body_quantity body);
  inr (mkBookingValue eid q).

(** ['BK' + Date.now() + Math.random().toString(36).substr(2, 9).toUpperCase()],
    with the clock reading and the random suffix supplied by the caller. *)
Definition generateBookingReference (now : Z) (rnd : string) : string :=
  "BK" +:+ pretty now +:+ rnd.

(** ** Documents, store and responses *)

Section Handlers.

(** JavaScript Numbers that need not be integers (prices).
    [times p q] is the product [p * q] of the language;
    [min0] is the Mongoose validator [min: 0];
    [Joi_min0 p] is the outcome of [Joi.number().min(0)] on [p]: [None]
    when accepted, the error type otherwise;
    [trim] is [String.prototype.trim], the setter of the schema option
    [trim: true]. *)
Context {Num : Type}.
Variable times : Num -> Z -> Num.
Variable min0 : Num -> bool.
Variable Joi_min0 : Num -> option JoiError.
Variable trim : string -> string.

(** models/Event.js *)
Record Event := mkEvent {
  title : string;
  description : string;
  organizer : ObjectId;
  date : Z;
  location : string;
  totalTickets : Z;
  availableTickets : Z;
  ticketPrice : Num;
  status : EventStatus.t;
  category : option string
}.

(** models/Booking.js *)
Record Booking := mkBooking {
  customer : ObjectId;
  event : ObjectId;
  quantity : Z;
  totalPrice : Num;
  booking_status : BookingStatus.t;
  bookingReference : string
}.

(** The payload of a 'booking-confirmation' job. *)
Record Job := mkJob {
  job_bookingId : ObjectId;
  job_customerId : ObjectId;
  job_eventId : ObjectId;
  job_quantity : Z;
  job_bookingReference : string
}.

(** The two collections and the queue of [jobQueueService]. *)
Record Db := mkDb {
  events : gmap string Event;
  bookings : gmap string Booking;
  jobs : list Job
}.

Definition empty_db : Db := mkDb ∅ ∅ [].

Definition set_events (m : gmap string Event) (db : Db) : Db :=
  mkDb m (bookings db) (jobs db).

Definition set_bookings (m : gmap string Booking) (db : Db) : Db :=
  mkDb (events db) m (jobs db).

(** [jobQueue.addJob('booking-confirmation', data)]: the job is appended to
    the queue (BullMQ or the in-memory array); [addJob] never throws. *)
Definition addJob (j : Job) (db : Db) : Db :=
  mkDb (events db) (bookings db) (jobs db ++ [j]).

(** What [res.json] is given. *)
Inductive Body :=
| message (m : string)
| validation_message (e : ValidationError)
| error_message (m : string)
| booking_created (m : string) (id : ObjectId) (reference : string)
    (q : Z) (price : Num) (s : BookingStatus.t)
| message_booking (m : string) (id : ObjectId) (b : Booking)
| message_event (m : string) (id : ObjectId) (e : Event)
| booking_document (id : ObjectId) (b : Booking)
| event_documents (l : list (ObjectId * Event)).

Record Response := mkResponse {
  code : Z;
  body : Body
}.

(** [res.status(c).json(b)]; [res.json(b)] answers 200. *)
Definition res_status (c : Z) (b : Body) : Response := mkResponse c b.
Definition res_json (b : Body) : Response := mkResponse 200 b.

(** ** Schema validators run by [save] *)

(** [required] rejects the empty string; [min] bounds the numbers. *)
Definition Event_validate (e : Event) : bool :=
  bool_decide (title e ≠ "")
  && bool_decide (description e ≠ "")
  && bool_decide (location e ≠ "")
  && (1 <=? totalTickets e)
  && min0 (ticketPrice e).

Definition Booking_validate (b : Booking) : bool :=
  (1 <=? quantity b)
  && min0 (totalPrice b)
  && bool_decide (bookingReference b ≠ "").

(** [save] of a new event: validation, then an insert that fails on a
    duplicate [_id].  [None] stands for the exception. *)
Definition Event_insert (id : ObjectId) (e : Event) (db : Db) : option Db :=
  if negb (Event_validate e) then None
  else match events db !! id with
       | Some _ => None
       | None => Some (set_events (<[id := e]> (events db)) db)
       end.

(** [save] of a loaded event: validation, then an update of the stored
    document, which must still exist. *)
Definition Event_save (id : ObjectId) (e : Event) (db : Db) : option Db :=
  if negb (Event_validate e) then None
  else match events db !! id with
       | Some _ => Some (set_events (<[id := e]> (events db)) db)
       | None => None
       end.

(** The unique index on [bookingReference]. *)
Definition reference_taken (r : string) (m : gmap string Booking) : bool :=
  bool_decide (map_Exists (fun _ b => bookingReference b = r) m).

Definition Booking_insert (id : ObjectId) (b : Booking) (db : Db) : option Db :=
  if negb (Booking_validate b) then None
  else match bookings db !! id with
       | Some _ => None
       | None =>
           if reference_taken (bookingReference b) (bookings db) then None
           else Some (set_bookings (<[id := b]> (bookings db)) db)
       end.

Definition Booking_save (id : ObjectId) (b : Booking) (db : Db) : option Db :=
  if negb (Booking_validate b) then None
  else match bookings db !! id with
       | Some _ => Some (set_bookings (<[id := b]> (bookings db)) db)
       | None => None
       end.

(** Field assignments on a loaded document. *)
Definition set_availableTickets (n : Z) (e : Event) : Event :=
  mkEvent (title e) (description e) (organizer e) (date e) (location e)
    (totalTickets e) n (ticketPrice e) (status e) (category e).

Definition set_status (s : EventStatus.t) (e : Event) : Event :=
  mkEvent (title e) (description e) (organizer e) (date e) (location e)
    (totalTickets e) (availableTickets e) (ticketPrice e) s (category e).

Definition set_booking_status (s : BookingStatus.t) (b : Booking) : Booking :=
  mkBooking (customer b) (event b) (quantity b) (totalPrice b) s
    (bookingReference b).

(** ** eventController.js *)

Record CreateEventBody := mkCreateEventBody {
  new_title : option string;
  new_description : option string;
  new_date : option Z;
  new_location : option string;
  new_totalTickets : option Z;
  new_ticketPrice : option Num;
  new_category : option string
}.

Record CreateEventValue := mkCreateEventValue {
  c_title : string;
  c_description : string;
  c_date : Z;
  c_location : string;
  c_totalTickets : Z;
  c_ticketPrice : Num;
  c_category : option string
}.

Definition Joi_required {A} (key : string) (v : option A) : ValidationError + A :=
  match v with
  | None => inl (mkValidationError key any_required)
  | Some a => inr a
  end.

Definition Joi_price (key : string) (p : Num) : ValidationError + Num :=
  match Joi_min0 p with
  | Some e => inl (mkValidationError key e)
  | None => inr p
  end.

Definition Joi_price_optional (key : string) (v : option Num)
  : ValidationError + option Num :=
  match v with
  | None => inr None
  | Some p => check p <- Joi_price key p; inr (Some p)
  end.

Definition createEventSchema_validate (body : CreateEventBody)
  : ValidationError + CreateEventValue :=
  check t <- Joi_string_required "title" (new_title body);
  check d <- Joi_string_required "description" (new_description body);
  check dt <- Joi_required "date" (new_date body);
  check l <- Joi_string_required "location" (new_location body);
  check n <- Joi_integer_min1_required "totalTickets" (new_totalTickets body);
  check p0 <- Joi_required "ticketPrice" (new_ticketPrice body);
  check p <- Joi_price "ticketPrice" p0;
  check c <- Joi_string_optional "category" (new_category body);
  inr (mkCreateEventValue t d dt l n p c).

Record UpdateEventBody := mkUpdateEventBody {
  upd_title : option string;
  upd_description : option string;
  upd_date : option Z;
  upd_location : option string;
  upd_totalTickets : option Z;
  upd_ticketPrice : option Num;
  upd_status : option string;
  upd_category : option string
}.

(** The validated [value], to which the handler may add [availableTickets]. *)
Record UpdateEventValue := mkUpdateEventValue {
  u_title : option string;
  u_description : option string;
  u_date : option Z;
  u_location : option string;
  u_totalTickets : option Z;
  u_ticketPrice : option Num;
  u_status : option EventStatus.t;
  u_category : option string;
  u_availableTickets : option Z
}.

Definition Joi_status_optional (key : string) (v : option string)
  : ValidationError + option EventStatus.t :=
  match v with
  | None => inr None
  | Some s =>
      match EventStatus.of_string s with
      | Some st => inr (Some st)
      | None => inl (mkValidationError key any_only)
      end
  end.

Definition updateEventSchema_validate (body : UpdateEventBody)
  : ValidationError + UpdateEventValue :=
  check t <- Joi_string_optional "title" (upd_title body);
  check d <- Joi_string_optional "description" (upd_description body);
  check l <- Joi_string_optional "location" (upd_location body);
  check n <- Joi_integer_min1_optional "totalTickets" (upd_totalTickets body);
  check p <- Joi_price_optional "ticketPrice" (upd_ticketPrice body);
  check st <- Joi_status_optional "status" (upd_status body);
  check c <- Joi_string_optional "category" (upd_category body);
  inr (mkUpdateEventValue t d (upd_date body) l n p st c None).

Definition set_u_availableTickets (n : Z) (v : UpdateEventValue)
  : UpdateEventValue :=
  mkUpdateEventValue (u_title v) (u_description v) (u_date v) (u_location v)
    (u_totalTickets v) (u_ticketPrice v) (u_status v) (u_category v) (Some n).

(** [Object.assign(event, value)]: every key present in [value] is assigned;
    the setters of [title] and [category] trim. *)
Definition Object_assign (e : Event) (v : UpdateEventValue) : Event :=
  mkEvent
    (from_option trim (title e) (u_title v))
    (default (description e) (u_description v))
    (organizer e)
    (default (date e) (u_date v))
    (default (location e) (u_location v))
    (default (totalTickets e) (u_totalTickets v))
    (default (availableTickets e) (u_availableTickets v))
    (default (ticketPrice e) (u_ticketPrice v))
    (default (status e) (u_status v))
    (from_option (fun c => Some (trim c)) (category e) (u_category v)).

Definition createEvent (user_id : ObjectId) (body : CreateEventBody)
    (new_id : ObjectId) (db : Db) : Response * Db :=
  match createEventSchema_validate body with
  | inl error => (res_status 400 (validation_message error), db)
  | inr value =>
      let event :=
        mkEvent (trim (c_title value)) (c_description value) user_id
          (c_date value) (c_location value) (c_totalTickets value)
          (c_totalTickets value) (c_ticketPrice value) EventStatus.draft
          (trim <$> c_category value) in
      match Event_insert new_id event db with
      | None => (res_status 500 (error_message "Error creating event"), db)
      | Some db' =>
          (res_status 201
             (message_event "Event created successfully" new_id event), db')
      end
  end.

Record EventsQuery := mkEventsQuery {
  query_status : option string;
  query_category : option string
}.

(** The [filter] object of [getEvents], as [Event.find] applies it: Mongoose
    casts the values of a filter through the setters of their paths, so the
    [category] asked for is trimmed before it is compared. *)
Definition events_filter (q : EventsQuery) (e : Event) : bool :=
  let status_ := default "published" (query_status q) in
  bool_decide (EventStatus.to_string (status e) = status_)
  && match query_category q with
     | Some c =>
         if bool_decide (c = "") then true
         else bool_decide (category e = Some (trim c))
     | None => true
     end.

Definition getEvents (q : EventsQuery) (db : Db) : Response * Db :=
  let found :=
    List.filter (fun kv => events_filter q kv.2) (map_to_list (events db)) in
  (res_json (event_documents found), db).

Definition updateEvent (user_id : ObjectId) (id : ObjectId)
    (body : UpdateEventBody) (db : Db) : Response * Db :=
  match updateEventSchema_validate body with
  | inl error => (res_status 400 (validation_message error), db)
  | inr value =>
      match events db !! id with
      | None => (res_status 404 (message "Event not found"), db)
      | Some event =>
          if bool_decide (organizer event ≠ user_id) then
            (res_status 403 (message "Not authorized to update this event"), db)
          else
            let value :=
              match u_totalTickets value with
              | Some n =>
                  if bool_decide (n ≠ 0) && bool_decide (n ≠ totalTickets event)
                  then
                    let difference := n - totalTickets event in
                    set_u_availableTickets
                      (availableTickets event + difference) value
                  else value
              | None => value
              end in
            let event := Object_assign event value in
            match Event_save id event db with
            | None =>
                (res_status 500 (error_message "Error updating event"), db)
            | Some db' =>
                (res_json (message_event "Event updated successfully" id event),
                 db')
            end
      end
  end.

Definition deleteEvent (user_id : ObjectId) (id : ObjectId) (db : Db)
  : Response * Db :=
  match events db !! id with
  | None => (res_status 404 (message "Event not found"), db)
  | Some event =>
      if bool_decide (organizer event ≠ user_id) then
        (res_status 403 (message "Not authorized to delete this event"), db)
      else
        (res_json (message "Event deleted successfully"),
         set_events (delete id (events db)) db)
  end.

Definition publishEvent (user_id : ObjectId) (id : ObjectId) (db : Db)
  : Response * Db :=
  match events db !! id with
  | None => (res_status 404 (message "Event not found"), db)
  | Some event =>
      if bool_decide (organizer event ≠ user_id) then
        (res_status 403 (message "Not authorized to publish this event"), db)
      else
        let event := set_status EventStatus.published event in
        match Event_save id event db with
        | None =>
            (res_status 500 (error_message "Error publishing event"), db)
        | Some db' =>
            (res_json (message_event "Event published successfully" id event),
             db')
        end
  end.

(** ** bookingController.js *)

Definition not_enough_tickets (available : Z) : string :=
  "Not enough tickets available. Only " +:+ pretty available +:+ " remaining".

(** [new_id] is the [_id] that [new Booking] draws; [now] and [rnd] are the
    clock reading and the random suffix of the booking reference. *)
Definition bookTickets (user_id : ObjectId) (body : BookingBody)
    (new_id : ObjectId) (now : Z) (rnd : string) (db : Db) : Response * Db :=
  match bookingSchema_validate body with
  | inl error => (res_status 400 (validation_message error), db)
  | inr value =>
      match events db !! eventId value with
      | None => (res_status 404 (message "Event not found"), db)
      | Some event =>
          if bool_decide (status event ≠ EventStatus.published) then
            (res_status 400 (message "Event is not published"), db)
          else if availableTickets event <? value_quantity value then
            (res_status 400
               (message (not_enough_tickets (availableTickets event))), db)
          else
            let bookingReference := generateBookingReference now rnd in
            let totalPrice := times (ticketPrice event) (value_quantity value) in
            let booking :=
              mkBooking user_id (eventId value) (value_quantity value)
                totalPrice BookingStatus.confirmed bookingReference in
            match Booking_insert new_id booking db with
            | None =>
                (res_status 500 (error_message "Error booking tickets"), db)
            | Some db1 =>
                let event :=
                  set_availableTickets
                    (availableTickets event - value_quantity value) event in
                match Event_save (eventId value) event db1 with
                | None =>
                    (res_status 500 (error_message "Error booking tickets"),
                     db1)
                | Some db2 =>
                    let db3 :=
                      addJob
                        (mkJob new_id user_id (eventId value)
                           (value_quantity value) bookingReference) db2 in
                    (res_status 201
                       (booking_created "Booking created successfully" new_id
                          bookingReference (value_quantity value) totalPrice
                          BookingStatus.confirmed), db3)
                end
            end
      end
  end.

(** [populate('event')] leaves [null] when the event is gone, and
    [booking.event._id] then throws. *)
Definition getBookingById (user_id : ObjectId) (id : ObjectId) (db : Db)
  : Response * Db :=
  match bookings db !! id with
  | None => (res_status 404 (message "Booking not found"), db)
  | Some booking =>
      if bool_decide (customer booking ≠ user_id) then
        match events db !! event booking with
        | None => (res_status 500 (error_message "Error fetching booking"), db)
        | Some event_ =>
            if bool_decide (organizer event_ ≠ user_id) then
              (res_status 403
                 (message "Not authorized to view this booking"), db)
            else (res_json (booking_document id booking), db)
        end
      else (res_json (booking_document id booking), db)
  end.

(** [Event.findById(booking.event)] is [null] when the event is gone, and
    [event.availableTickets] then throws, after the booking was saved. *)
Definition cancelBooking (user_id : ObjectId) (id : ObjectId) (db : Db)
  : Response * Db :=
  match bookings db !! id with
  | None => (res_status 404 (message "Booking not found"), db)
  | Some booking =>
      if bool_decide (customer booking ≠ user_id) then
        (res_status 403 (message "Not authorized to cancel this booking"), db)
      else if bool_decide (booking_status booking = BookingStatus.cancelled) then
        (res_status 400 (message "Booking is already cancelled"), db)
      else
        let booking := set_booking_status BookingStatus.cancelled booking in
        match Booking_save id booking db with
        | None =>
            (res_status 500 (error_message "Error cancelling booking"), db)
        | Some db1 =>
            match events db1 !! event booking with
            | None =>
                (res_status 500 (error_message "Error cancelling booking"),
                 db1)
            | Some event_ =>
                let event_ :=
                  set_availableTickets
                    (availableTickets event_ + quantity booking) event_ in
                match Event_save (event booking) event_ db1 with
                | None =>
                    (res_status 500 (error_message "Error cancelling booking"),
                     db1)
                | Some db2 =>
                    (res_json
                       (message_booking "Booking cancelled successfully" id
                          booking), db2)
                end
            end
        end
  end.

(** ** Serialized requests *)

Inductive Request :=
| CreateEvent (user_id : ObjectId) (body : CreateEventBody) (new_id : ObjectId)
| UpdateEvent (user_id : ObjectId) (id : ObjectId) (body : UpdateEventBody)
| PublishEvent (user_id : ObjectId) (id : ObjectId)
| BookTickets (user_id : ObjectId) (body : BookingBody) (new_id : ObjectId)
    (now : Z) (rnd : string)
| CancelBooking (user_id : ObjectId) (id : ObjectId).

Definition handle (r : Request) (db : Db) : Response * Db :=
  match r with
  | CreateEvent u body new_id => createEvent u body new_id db
  | UpdateEvent u id body => updateEvent u id body db
  | PublishEvent u id => publishEvent u id db
  | BookTickets u body new_id now rnd => bookTickets u body new_id now rnd db
  | CancelBooking u id => cancelBooking u id db
  end.

(** The requests are served one after the other. *)
Fixpoint run (rs : list Request) (db : Db) : Db :=
  match rs with
  | [] => db
  | r :: rs => run rs (handle r db).2
  end.

(** The answers of such a run, in order. *)
Fixpoint responses (rs : list Request) (db : Db) : list Response :=
  match rs with
  | [] => []
  | r :: rs => (handle r db).1 :: responses rs (handle r db).2
  end.

(** ** [bookTickets] between its [await] points

    Node runs a handler until its next [await]; the awaited store operation
    takes effect, and the handler resumes later, after other handlers may
    have run.  A [BookTask] is a call of [bookTickets] suspended at an
    [await]; [book_step] performs the awaited operation and runs the call up
    to the next one. *)

Inductive BookTask :=
| before_findById (user_id : ObjectId) (body : BookingBody) (new_id : ObjectId)
    (now : Z) (rnd : string)
| before_booking_save (user_id : ObjectId) (value : BookingValue)
    (new_id : ObjectId) (now : Z) (rnd : string) (found : option Event)
| before_event_save (user_id : ObjectId) (value : BookingValue)
    (new_id : ObjectId) (bookingReference : string) (totalPrice : Num)
    (event_ : Event)
| before_addJob (user_id : ObjectId) (value : BookingValue)
    (new_id : ObjectId) (bookingReference : string) (totalPrice : Num)
| responded (r : Response).

(** [event.save()] of a loaded document whose only modified path is
    [availableTickets]: the local document is validated and the path is
    written to the stored document. *)
Definition Event_save_availableTickets (id : ObjectId) (local : Event)
    (db : Db) : option Db :=
  if negb (Event_validate local) then None
  else match events db !! id with
       | Some stored =>
           Some (set_events
                   (<[id := set_availableTickets (availableTickets local) stored]>
                      (events db)) db)
       | None => None
       end.

Definition book_step (t : BookTask) (db : Db) : BookTask * Db :=
  match t with
  | before_findById user_id body new_id now rnd =>
      match bookingSchema_validate body with
      | inl error => (responded (res_status 400 (validation_message error)), db)
      | inr value =>
          (before_booking_save user_id value new_id now rnd
             (events db !! eventId value), db)
      end
  | before_booking_save user_id value new_id now rnd found =>
      match found with
      | None => (responded (res_status 404 (message "Event not found")), db)
      | Some event =>
          if bool_decide (status event ≠ EventStatus.published) then
            (responded (res_status 400 (message "Event is not published")), db)
          else if availableTickets event <? value_quantity value then
            (responded
               (res_status 400
                  (message (not_enough_tickets (availableTickets event)))), db)
          else
            let bookingReference := generateBookingReference now rnd in
            let totalPrice := times (ticketPrice event) (value_quantity value) in
            let booking :=
              mkBooking user_id (eventId value) (value_quantity value)
                totalPrice BookingStatus.confirmed bookingReference in
            match Booking_insert new_id booking db with
            | None =>
                (responded
                   (res_status 500 (error_message "Error booking tickets")), db)
            | Some db1 =>
                (before_event_save user_id value new_id bookingReference
                   totalPrice event, db1)
            end
      end
  | before_event_save user_id value new_id bookingReference totalPrice event =>
      let event :=
        set_availableTickets
          (availableTickets event - value_quantity value) event in
      match Event_save_availableTickets (eventId value) event db with
      | None =>
          (responded (res_status 500 (error_message "Error booking tickets")),
           db)
      | Some db2 =>
          (before_addJob user_id value new_id bookingReference totalPrice, db2)
      end
  | before_addJob user_id value new_id bookingReference totalPrice =>
      let db3 :=
        addJob
          (mkJob new_id user_id (eventId value) (value_quantity value)
             bookingReference) db in
      (responded
         (res_status 201
            (booking_created "Booking created successfully" new_id
               bookingReference (value_quantity value) totalPrice
               BookingStatus.confirmed)), db3)
  | responded r => (responded r, db)
  end.

(** One call run alone for [n] steps. *)
Fixpoint book_steps (n : nat) (t : BookTask) (db : Db) : BookTask * Db :=
  match n with
  | O => (t, db)
  | S n => let '(t', db') := book_step t db in book_steps n t' db'
  end.

(** Several calls in flight; the schedule names the call that runs next. *)
Fixpoint run_schedule (schedule : list nat) (ts : list BookTask) (db : Db)
  : list BookTask * Db :=
  match schedule with
  | [] => (ts, db)
  | i :: schedule =>
      match ts !! i with
      | None => run_schedule schedule ts db
      | Some t =>
          let '(t', db') := book_step t db in
          run_schedule schedule (<[i := t']> ts) db'
      end
  end.

(** Tickets held by the confirmed and pending bookings of an event. *)
Definition holds_tickets (id : ObjectId) (b : Booking) : bool :=
  bool_decide (event b = id)
  && bool_decide (booking_status b ≠ BookingStatus.cancelled).

Definition tickets_held (id : ObjectId) (b : Booking) : Z :=
  if holds_tickets id b then quantity b else 0.

Definition booked (id : ObjectId) (m : gmap string Booking) : Z :=
  map_fold (fun _ b acc => acc + tickets_held id b) 0 m.

(** The store is consistent: its documents are valid, every booking is for
    an event of the collection, and the tickets missing from an event are
    those its bookings hold. *)
Record inventory_consistent (db : Db) : Prop := mk_inventory_consistent {
  consistent_valid_events :
    map_Forall (fun _ e => Event_validate e = true) (events db);
  consistent_valid_bookings :
    map_Forall (fun _ b => Booking_validate b = true) (bookings db);
  consistent_references :
    forall id b, bookings db !! id = Some b -> is_Some (events db !! event b);
  consistent_counts :
    forall id e,
      events db !! id = Some e ->
      totalTickets e - availableTickets e = booked id (bookings db)
}.

Definition never_negative (db : Db) : Prop :=
  forall id e, events db !! id = Some e -> 0 <= availableTickets e.

(** What a request may do to the store. *)
Inductive effect (r : Request) (db : Db) : Db -> Prop :=
| effect_none : effect r db db
| effect_new_event id ev :
    events db !! id = None ->
    Event_validate ev = true ->
    availableTickets ev = totalTickets ev ->
    effect r db (set_events (<[id := ev]> (events db)) db)
| effect_event_update id e e' :
    events db !! id = Some e ->
    Event_validate e' = true ->
    totalTickets e' - availableTickets e'
      = totalTickets e - availableTickets e ->
    (availableTickets e' = availableTickets e
     \/ exists user_id body,
          r = UpdateEvent user_id id body
          /\ upd_totalTickets body = Some (totalTickets e')) ->
    effect r db (set_events (<[id := e']> (events db)) db)
| effect_booking id e new_id b j :
    events db !! id = Some e ->
    bookings db !! new_id = None ->
    Booking_validate b = true ->
    event b = id ->
    booking_status b <> BookingStatus.cancelled ->
    quantity b <= availableTickets e ->
    effect r db
      (addJob j
         (set_events
            (<[id := set_availableTickets (availableTickets e - quantity b) e]>
               (events db))
            (set_bookings (<[new_id := b]> (bookings db)) db)))
| effect_cancellation id b e :
    bookings db !! id = Some b ->
    booking_status b <> BookingStatus.cancelled ->
    events db !! event b = Some e ->
    effect r db
      (set_events
         (<[event b :=
              set_availableTickets (availableTickets e + quantity b) e]>
            (events db))
         (set_bookings
            (<[id := set_booking_status BookingStatus.cancelled b]>
               (bookings db)) db)).

(** An update request does not lower [totalTickets] below the number of
    tickets that are booked. *)
Definition covers_booked (r : Request) (db : Db) : Prop :=
  match r with
  | UpdateEvent _ id body =>
      forall e n,
        events db !! id = Some e -> upd_totalTickets body = Some n ->
        totalTickets e - availableTickets e <= n
  | _ => True
  end.

Fixpoint all_cover_booked (rs : list Request) (db : Db) : Prop :=
  match rs with
  | [] => True
  | r :: rs => covers_booked r db /\ all_cover_booked rs (handle r db).2
  end.

(** ** The read handlers *)

(** [sort('-createdAt')]: the documents carry no [createdAt] here, so the
    sort is a parameter; it reorders the documents it is given. *)
Variable sort_createdAt_desc :
  list (ObjectId * Booking) -> list (ObjectId * Booking).

Inductive EventBody :=
| event_document (id : ObjectId) (e : Event)
| event_message (m : string).

(** eventController.js, [getEventById]. *)
Definition getEventById (id : ObjectId) (db : Db) : (Z * EventBody) * Db :=
  match events db !! id with
  | None => ((404, event_message "Event not found"), db)
  | Some event => ((200, event_document id event), db)
  end.

(** [populate('event', 'title date location')]: [null] when the event is
    gone. *)
Definition populate_event (db : Db) (b : Booking) : option (string * Z * string) :=
  (fun e => (title e, date e, location e)) <$> events db !! event b.

Inductive BookingsBody :=
| bookings_message (m : string)
| bookings_error (m : string)
| my_bookings (l : list (ObjectId * Booking * option (string * Z * string)))
| event_bookings (l : list (ObjectId * Booking)).

(** bookingController.js, [getMyBookings]. *)
Definition getMyBookings (user_id : ObjectId) (db : Db)
  : (Z * BookingsBody) * Db :=
  let found :=
    List.filter (fun kv => bool_decide (customer kv.2 = user_id))
      (map_to_list (bookings db)) in
  let sorted := sort_createdAt_desc found in
  ((200, my_bookings (map (fun kv => (kv, populate_event db kv.2)) sorted)),
   db).

(** bookingController.js, [getEventBookings]. *)
Definition getEventBookings (user_id : ObjectId) (eventId : ObjectId) (db : Db)
  : (Z * BookingsBody) * Db :=
  match events db !! eventId with
  | None => ((404, bookings_message "Event not found"), db)
  | Some event_ =>
      if bool_decide (organizer event_ ≠ user_id) then
        ((403,
          bookings_message "Not authorized to view bookings for this event"),
         db)
      else
        let found :=
          List.filter (fun kv => bool_decide (event kv.2 = eventId))
            (map_to_list (bookings db)) in
        ((200, event_bookings (sort_createdAt_desc found)), db)
  end.

(** ** Ids that do not cast

    [Model.findById(id)] casts the string [id] to an ObjectId before it
    queries the collection.  The [_id] of a stored document is an ObjectId,
    so an id that is found casts: the definitions above are the handlers on
    an id that casts.  On any other string Mongoose throws CastError inside
    the [try] block, and the [catch] block of the handler answers 500.
    Which strings cast depends on the version of the driver and is a
    parameter. *)
Variable casts_to_ObjectId : string -> bool.








(** ** server.js, [POST /api/process-jobs]

    The console output of the processors is not represented. *)

(** jobs/jobProcessors.js, [processBookingConfirmation]: reading a field of
    a missing event or booking throws ([None]). *)
Definition processBookingConfirmation (job : Job) (db : Db)
  : option (bool * string) :=
  match bookings db !! job_bookingId job, events db !! job_eventId job with
  | Some _, Some _ => Some (true, "Booking confirmation sent")
  | _, _ => None
  end.

(** jobs/jobProcessors.js, [processEventNotification]: the bookings of the
    event that are confirmed or pending are counted. *)
Definition processEventNotification (eventId : ObjectId) (db : Db)
  : option (bool * string) :=
  match events db !! eventId with
  | None => None
  | Some _ =>
      let notified :=
        List.filter
          (fun kv =>
             bool_decide (event kv.2 = eventId)
             && (bool_decide (booking_status kv.2 = BookingStatus.confirmed)
                 || bool_decide (booking_status kv.2 = BookingStatus.pending)))
          (map_to_list (bookings db)) in
      Some (true,
            "Event update notifications sent to "
              +:+ pretty (length notified) +:+ " customers")
  end.

Inductive JobsBody :=
| jobs_message (m : string)
| jobs_error (m : string)
| confirmations_processed (m : string) (processed : nat)
    (results : list (bool * string))
| notifications_processed (m : string) (result : bool * string).

(** The loop over [pendingBookings]: [booking.event._id] throws when the
    populated event is [null]. *)
Fixpoint process_confirmations (pending : list (ObjectId * Booking)) (db : Db)
  : option (list (bool * string)) :=
  match pending with
  | [] => Some []
  | (id, booking) :: pending =>
      match events db !! event booking with
      | None => None
      | Some _ =>
          match
            processBookingConfirmation
              (mkJob id (customer booking) (event booking) (quantity booking)
                 (bookingReference booking)) db
          with
          | None => None
          | Some result =>
              match process_confirmations pending db with
              | None => None
              | Some results => Some (result :: results)
              end
          end
      end
  end.

Definition process_jobs (jobType : option string) (db : Db)
  : (Z * JobsBody) * Db :=
  if bool_decide (jobType = Some "booking-confirmations") then
    let pendingBookings :=
      take 10
        (List.filter
           (fun kv =>
              bool_decide (booking_status kv.2 = BookingStatus.confirmed))
           (map_to_list (bookings db))) in
    match process_confirmations pendingBookings db with
    | None => ((500, jobs_error "Error processing jobs"), db)
    | Some results =>
        ((200,
          confirmations_processed "Booking confirmations processed"
            (length results) results), db)
    end
  else if bool_decide (jobType = Some "event-notifications") then
    let eventToNotify :=
      head
        (List.filter
           (fun kv => bool_decide (status kv.2 = EventStatus.published))
           (map_to_list (events db))) in
    match eventToNotify with
    | Some (id, _) =>
        match processEventNotification id db with
        | None => ((500, jobs_error "Error processing jobs"), db)
        | Some result =>
            ((200,
              notifications_processed "Event notifications processed" result),
             db)
        end
    | None => ((200, jobs_message "No events to notify"), db)
    end
  else ((400, jobs_message "Invalid job type"), db).

(** ** Every request that changes the store *)

Inductive Call :=
| Served (r : Request)
| DeleteEvent (user_id : ObjectId) (id : ObjectId).

Definition serve (c : Call) (db : Db) : Db :=
  match c with
  | Served r => (handle r db).2
  | DeleteEvent user_id id => (deleteEvent user_id id db).2
  end.

Fixpoint serve_all (cs : list Call) (db : Db) : Db :=
  match cs with
  | [] => db
  | c :: cs => serve_all cs (serve c db)
  end.

(** No two bookings share a reference. *)
Definition references_unique (m : gmap string Booking) : Prop :=
  forall i j bi bj,
    m !! i = Some bi -> m !! j = Some bj ->
    bookingReference bi = bookingReference bj -> i = j.

(** * Properties *)

(** What the development assumes of the Number operations: a price that
    passes [Joi.number().min(0)] passes [min: 0], and the product of a
    non-negative price and a positive count passes [min: 0]. *)
Hypothesis Joi_min0_min0 : forall p, Joi_min0 p = None -> min0 p = true.
Hypothesis times_min0 :
  forall p q, min0 p = true -> 1 <= q -> min0 (times p q) = true.

(** ** Validation *)

Lemma Joi_integer_min1_inr key n m :
  Joi_integer_min1 key n = inr m <-> m = n /\ 1 <= n <= MAX_SAFE_INTEGER.
Proof.
  unfold Joi_integer_min1.
  destruct (Z.ltb_spec n (- MAX_SAFE_INTEGER)),
    (Z.ltb_spec MAX_SAFE_INTEGER n), (Z.ltb_spec n 1); simpl;
    split; intros H'; try discriminate; try (inversion H'; lia);
    try (destruct H'; unfold MAX_SAFE_INTEGER in *; lia).
  destruct H' as [-> _]. reflexivity.
Qed.

(** A body is accepted exactly when [eventId] is a non-empty string and
    [quantity] an integer from 1 to [MAX_SAFE_INTEGER]. *)
Lemma bookingSchema_validate_inr body value :
  bookingSchema_validate body = inr value <->
  body_eventId body = Some (eventId value) /\ eventId value <> ""
  /\ body_quantity body = Some (value_quantity value)
  /\ 1 <= value_quantity value <= MAX_SAFE_INTEGER.
Proof.
  unfold bookingSchema_validate, Joi_string_required,
    Joi_integer_min1_required, and_then.
  destruct body as [[eid|] [q|]], value as [eid' q']; simpl;
    try case_bool_decide; simpl;
    try (split; [discriminate | intros (? & ? & ? & ?); congruence]).
  destruct (Joi_integer_min1 "quantity" q) as [err|m] eqn:Hq.
  - split; [discriminate |].
    intros (? & ? & ? & ?); simplify_eq.
    assert (Joi_integer_min1 "quantity" q' = inr q') as Hq'
      by (apply Joi_integer_min1_inr; done).
    congruence.
  - apply Joi_integer_min1_inr in Hq as [-> Hq].
    split.
    + intros ?; simplify_eq. done.
    + intros (? & ? & ? & ?); simplify_eq. done.
Qed.

Lemma generateBookingReference_nonempty now rnd :
  generateBookingReference now rnd <> "".
Proof. unfold generateBookingReference. simpl. discriminate. Qed.

(** ** The [save] primitives on a valid input *)

Lemma Event_validate_set_availableTickets n e :
  Event_validate (set_availableTickets n e) = Event_validate e.
Proof. reflexivity. Qed.

Lemma Event_validate_set_status s e :
  Event_validate (set_status s e) = Event_validate e.
Proof. reflexivity. Qed.

Lemma Booking_validate_set_booking_status s b :
  Booking_validate (set_booking_status s b) = Booking_validate b.
Proof. reflexivity. Qed.

Lemma Event_validate_min0 e : Event_validate e = true -> min0 (ticketPrice e) = true.
Proof. unfold Event_validate. intros H. repeat (apply andb_prop in H as [H ?]). done. Qed.

Lemma Booking_validate_quantity b : Booking_validate b = true -> 1 <= quantity b.
Proof.
  unfold Booking_validate. intros H.
  repeat (apply andb_prop in H as [H ?]). lia.
Qed.

Lemma Event_save_Some id e' e db :
  Event_validate e' = true -> events db !! id = Some e ->
  Event_save id e' db = Some (set_events (<[id := e']> (events db)) db).
Proof. intros Hv Hl. unfold Event_save. rewrite Hv, Hl. reflexivity. Qed.

Lemma Booking_save_Some id b' b db :
  Booking_validate b' = true -> bookings db !! id = Some b ->
  Booking_save id b' db = Some (set_bookings (<[id := b']> (bookings db)) db).
Proof. intros Hv Hl. unfold Booking_save. rewrite Hv, Hl. reflexivity. Qed.

Lemma Booking_insert_Some id b db :
  Booking_validate b = true -> bookings db !! id = None ->
  reference_taken (bookingReference b) (bookings db) = false ->
  Booking_insert id b db = Some (set_bookings (<[id := b]> (bookings db)) db).
Proof. intros Hv Hl Hr. unfold Booking_insert. rewrite Hv, Hl, Hr. reflexivity. Qed.

(** The booking that [bookTickets] builds passes the Booking schema. *)
Lemma new_booking_valid user_id value now rnd e :
  Event_validate e = true -> 1 <= value_quantity value ->
  Booking_validate
    (mkBooking user_id (eventId value) (value_quantity value)
       (times (ticketPrice e) (value_quantity value)) BookingStatus.confirmed
       (generateBookingReference now rnd)) = true.
Proof.
  intros He Hq. unfold Booking_validate; simpl.
  rewrite times_min0 by (auto using Event_validate_min0).
  destruct (Z.leb_spec 1 (value_quantity value)); [reflexivity | lia].
Qed.

(** ** Booking tickets *)

(** The next store and the answer of an accepted booking. *)
Lemma bookTickets_accepted user_id body value new_id now rnd db e :
  bookingSchema_validate body = inr value ->
  events db !! eventId value = Some e ->
  Event_validate e = true ->
  status e = EventStatus.published ->
  value_quantity value <= availableTickets e ->
  bookings db !! new_id = None ->
  reference_taken (generateBookingReference now rnd) (bookings db) = false ->
  let q := value_quantity value in
  let reference := generateBookingReference now rnd in
  let price := times (ticketPrice e) q in
  bookTickets user_id body new_id now rnd db =
    (res_status 201
       (booking_created "Booking created successfully" new_id reference q price
          BookingStatus.confirmed),
     addJob (mkJob new_id user_id (eventId value) q reference)
       (set_events
          (<[eventId value := set_availableTickets (availableTickets e - q) e]>
             (events db))
          (set_bookings
             (<[new_id := mkBooking user_id (eventId value) q price
                            BookingStatus.confirmed reference]> (bookings db))
             db))).
Proof.
  intros Hbody He Hvalid Hpub Hq Hfresh Hunique; simpl.
  pose proof (proj1 (bookingSchema_validate_inr _ _) Hbody)
    as (_ & _ & _ & Hq1 & _).
  unfold bookTickets. rewrite Hbody, He.
  rewrite bool_decide_eq_false_2 by (intros Hne; apply Hne, Hpub).
  destruct (Z.ltb_spec (availableTickets e) (value_quantity value)); [lia |].
  rewrite Booking_insert_Some by (auto using new_booking_valid).
  erewrite Event_save_Some;
    [| by rewrite Event_validate_set_availableTickets | exact He].
  reflexivity.
Qed.

(** C2. A valid booking request against a published event with enough
    tickets left, for which a reference is drawn that no stored booking has:
    the answer is 201 with the booking, a confirmed booking priced at
    [quantity] times the ticket price is stored, and [availableTickets] is
    lowered by [quantity].  When the reference drawn is taken, the unique
    index refuses the booking: the answer is 500 and nothing is changed.
    The event is a document of the Event schema and the [_id] of the new
    booking is unused. *)
Theorem bookTickets_confirmed user_id request value new_id now rnd db e :
  bookingSchema_validate request = inr value ->
  events db !! eventId value = Some e ->
  Event_validate e = true ->
  status e = EventStatus.published ->
  value_quantity value <= availableTickets e ->
  bookings db !! new_id = None ->
  let q := value_quantity value in
  let reference := generateBookingReference now rnd in
  let price := times (ticketPrice e) q in
  let result := bookTickets user_id request new_id now rnd db in
  (reference_taken reference (bookings db) = false ->
   code result.1 = 201
   /\ body result.1 =
        booking_created "Booking created successfully" new_id reference q
          price BookingStatus.confirmed
   /\ bookings result.2 =
        <[new_id := mkBooking user_id (eventId value) q price
                      BookingStatus.confirmed reference]> (bookings db)
   /\ (booking_status <$> bookings result.2 !! new_id)
      = Some BookingStatus.confirmed
   /\ (totalPrice <$> bookings result.2 !! new_id) = Some price
   /\ events result.2 =
        <[eventId value := set_availableTickets (availableTickets e - q) e]>
          (events db)
   /\ (availableTickets <$> events result.2 !! eventId value)
      = Some (availableTickets e - q)
   /\ jobs result.2 =
        jobs db ++ [mkJob new_id user_id (eventId value) q reference])
  /\ (reference_taken reference (bookings db) = true ->
      code result.1 = 500 /\ result.2 = db).
Proof.
  intros Hbody He Hvalid Hpub Hq Hfresh; simpl. split.
  - intros Hunique.
    rewrite (bookTickets_accepted _ _ _ _ _ _ _ _ Hbody He) by assumption.
    simpl. rewrite !lookup_insert_eq. simpl.
    repeat (split; [reflexivity |]). reflexivity.
  - intros Htaken. unfold bookTickets. rewrite Hbody, He.
    rewrite bool_decide_eq_false_2 by (intros Hne; apply Hne, Hpub).
    destruct (Z.ltb_spec (availableTickets e) (value_quantity value));
      [lia |].
    simpl. unfold Booking_insert. simpl.
    destruct (negb _); [split; reflexivity |].
    rewrite Hfresh, Htaken. split; reflexivity.
Qed.

(** C3. A booking request whose body passes validation, against an
    existing event, is refused with 400 and the store is left as it was:
    with the reason that the event is not published when its status is not
    'published', and with the exact number of remaining tickets when it is
    published but has fewer tickets than requested.  A body that fails
    validation is refused with 400 and the validation message, whatever the
    event. *)
Theorem bookTickets_refused user_id body new_id now rnd db :
  (forall value e,
     bookingSchema_validate body = inr value ->
     events db !! eventId value = Some e ->
     (status e <> EventStatus.published ->
        bookTickets user_id body new_id now rnd db =
          (res_status 400 (message "Event is not published"), db))
     /\ (status e = EventStatus.published ->
         availableTickets e < value_quantity value ->
         bookTickets user_id body new_id now rnd db =
           (res_status 400
              (message
                 ("Not enough tickets available. Only "
                    +:+ pretty (availableTickets e) +:+ " remaining")), db)))
  /\ (forall error,
       bookingSchema_validate body = inl error ->
       bookTickets user_id body new_id now rnd db =
         (res_status 400 (validation_message error), db)).
Proof.
  split.
  - intros value e Hbody He. unfold bookTickets. rewrite Hbody, He. split.
    + intros Hst. case_bool_decide; [reflexivity | contradiction].
    + intros Hst Hlt. case_bool_decide; [contradiction |].
      apply Z.ltb_lt in Hlt. rewrite Hlt. reflexivity.
  - intros error Hbody. unfold bookTickets. rewrite Hbody. reflexivity.
Qed.

(** ** Cancelling a booking *)

(** The next store and the answer of an accepted cancellation. *)
Lemma cancelBooking_accepted user_id id db b e :
  bookings db !! id = Some b ->
  customer b = user_id ->
  booking_status b <> BookingStatus.cancelled ->
  events db !! event b = Some e ->
  Booking_validate b = true ->
  Event_validate e = true ->
  cancelBooking user_id id db =
    (res_json
       (message_booking "Booking cancelled successfully" id
          (set_booking_status BookingStatus.cancelled b)),
     set_events
       (<[event b := set_availableTickets (availableTickets e + quantity b) e]>
          (events db))
       (set_bookings
          (<[id := set_booking_status BookingStatus.cancelled b]> (bookings db))
          db)).
Proof.
  intros Hb Hown Hst He Hvb Hve. unfold cancelBooking. rewrite Hb.
  rewrite bool_decide_eq_false_2 by (intros Hne; apply Hne, Hown).
  rewrite bool_decide_eq_false_2 by exact Hst.
  erewrite Booking_save_Some; [| exact Hvb | exact Hb].
  simpl. rewrite He.
  erewrite Event_save_Some; [reflexivity | exact Hve | exact He].
Qed.

(** X25. The customer of a booking whose event is in the collection cancels
    it: a booking that is not cancelled becomes cancelled, its quantity is
    added to [availableTickets] of its event, and the answer is 200; a
    booking that is already cancelled is refused with 400 and nothing
    changes. *)
Theorem cancelBooking_by_customer user_id id db b :
  bookings db !! id = Some b ->
  customer b = user_id ->
  (booking_status b = BookingStatus.cancelled ->
     code (cancelBooking user_id id db).1 = 400
     /\ cancelBooking user_id id db =
          (res_status 400 (message "Booking is already cancelled"), db))
  /\ (booking_status b <> BookingStatus.cancelled ->
      forall e,
        events db !! event b = Some e ->
        Booking_validate b = true ->
        Event_validate e = true ->
        let result := cancelBooking user_id id db in
        code result.1 = 200
        /\ body result.1 =
             message_booking "Booking cancelled successfully" id
               (set_booking_status BookingStatus.cancelled b)
        /\ bookings result.2 =
             <[id := set_booking_status BookingStatus.cancelled b]> (bookings db)
        /\ (booking_status <$> bookings result.2 !! id)
           = Some BookingStatus.cancelled
        /\ (quantity <$> bookings result.2 !! id) = Some (quantity b)
        /\ events result.2 =
             <[event b :=
                 set_availableTickets (availableTickets e + quantity b) e]>
               (events db)
        /\ (availableTickets <$> events result.2 !! event b)
           = Some (availableTickets e + quantity b)
        /\ (totalTickets <$> events result.2 !! event b)
           = Some (totalTickets e)).
Proof.
  intros Hb Hown. split.
  - intros Hst. unfold cancelBooking. rewrite Hb.
    case_bool_decide; [congruence |].
    case_bool_decide; [split; reflexivity | contradiction].
  - intros Hst e He Hvb Hve; simpl.
    rewrite (cancelBooking_accepted _ _ _ _ _ Hb Hown Hst He Hvb Hve).
    simpl. rewrite !lookup_insert_eq. simpl.
    repeat (split; [reflexivity |]). reflexivity.
Qed.

Lemma set_availableTickets_back n e :
  set_availableTickets (availableTickets e) (set_availableTickets n e) = e.
Proof. destruct e; reflexivity. Qed.

(** C5. Booking [q] tickets of a published event that has at least [q]
    left and then cancelling that booking leaves the event collection, and
    so [availableTickets] of the event, as before. *)
Theorem book_then_cancel user_id body value new_id now rnd db e :
  bookingSchema_validate body = inr value ->
  events db !! eventId value = Some e ->
  Event_validate e = true ->
  status e = EventStatus.published ->
  value_quantity value <= availableTickets e ->
  bookings db !! new_id = None ->
  reference_taken (generateBookingReference now rnd) (bookings db) = false ->
  let booking_made := bookTickets user_id body new_id now rnd db in
  let booking_cancelled := cancelBooking user_id new_id booking_made.2 in
  code booking_made.1 = 201
  /\ (availableTickets <$> events booking_made.2 !! eventId value)
       = Some (availableTickets e - value_quantity value)
  /\ code booking_cancelled.1 = 200
  /\ (availableTickets <$> events booking_cancelled.2 !! eventId value)
       = Some (availableTickets e)
  /\ events booking_cancelled.2 = events db.
Proof.
  intros Hbody He Hvalid Hpub Hq Hfresh Hunique; simpl.
  pose proof (proj1 (bookingSchema_validate_inr _ _) Hbody)
    as (_ & _ & _ & Hq1 & _).
  rewrite (bookTickets_accepted _ _ _ _ _ _ _ _ Hbody He) by assumption.
  simpl.
  erewrite cancelBooking_accepted; simpl;
    [ | apply lookup_insert_eq | reflexivity | discriminate
      | simpl; apply lookup_insert_eq
      | apply new_booking_valid; assumption
      | rewrite Event_validate_set_availableTickets; assumption ].
  rewrite insert_insert_eq, !lookup_insert_eq. simpl.
  replace (availableTickets e - value_quantity value + value_quantity value)
    with (availableTickets e) by lia.
  rewrite set_availableTickets_back, insert_id by exact He.
  auto.
Qed.

(** ** Ownership *)


(** When the event of the booking has been deleted, the account that is not
    the customer is answered 500, and so is the customer who cancels, whose
    booking is cancelled all the same. *)
Lemma getBookingById_event_gone user_id id db b :
  bookings db !! id = Some b -> customer b <> user_id ->
  events db !! event b = None ->
  getBookingById user_id id db =
    (res_status 500 (error_message "Error fetching booking"), db).
Proof.
  intros Hb Hc He. unfold getBookingById.
  rewrite Hb, bool_decide_eq_true_2, He by assumption. reflexivity.
Qed.

Lemma cancelBooking_event_gone user_id id db b :
  bookings db !! id = Some b -> customer b = user_id ->
  booking_status b <> BookingStatus.cancelled ->
  Booking_validate b = true ->
  events db !! event b = None ->
  cancelBooking user_id id db =
    (res_status 500 (error_message "Error cancelling booking"),
     set_bookings
       (<[id := set_booking_status BookingStatus.cancelled b]> (bookings db))
       db).
Proof.
  intros Hb Hown Hst Hvb He. unfold cancelBooking. rewrite Hb.
  rewrite bool_decide_eq_false_2 by (intros Hne; apply Hne, Hown).
  rewrite bool_decide_eq_false_2 by exact Hst.
  erewrite Booking_save_Some; [| exact Hvb | exact Hb].
  simpl. rewrite He. reflexivity.
Qed.

(** ** Updating an event *)

Lemma Joi_string_optional_inr key v o :
  Joi_string_optional key v = inr o ->
  o = v /\ forall s, o = Some s -> s <> "".
Proof.
  unfold Joi_string_optional. destruct v as [s|].
  - case_bool_decide; [discriminate |].
    intros [= <-]. split; [reflexivity | congruence].
  - intros [= <-]. split; [reflexivity | discriminate].
Qed.

Lemma Joi_integer_min1_optional_inr key v o :
  Joi_integer_min1_optional key v = inr o ->
  o = v /\ forall n, o = Some n -> 1 <= n <= MAX_SAFE_INTEGER.
Proof.
  unfold Joi_integer_min1_optional. destruct v as [n|].
  - destruct (Joi_integer_min1 key n) as [err|m] eqn:Hn; [discriminate |].
    apply Joi_integer_min1_inr in Hn as [-> Hn].
    intros [= <-]. split; [reflexivity |]. intros ? [= <-]. exact Hn.
  - intros [= <-]. split; [reflexivity | discriminate].
Qed.

Lemma Joi_price_optional_inr key v o :
  Joi_price_optional key v = inr o ->
  o = v /\ forall p, o = Some p -> min0 p = true.
Proof.
  unfold Joi_price_optional, Joi_price, and_then. destruct v as [p|].
  - destruct (Joi_min0 p) eqn:Hp; [discriminate |].
    intros [= <-]. split; [reflexivity |].
    intros ? [= <-]. apply Joi_min0_min0, Hp.
  - intros [= <-]. split; [reflexivity | discriminate].
Qed.

(** What the handler knows of an accepted update. *)
Record accepted_update (v : UpdateEventValue) : Prop := mk_accepted_update {
  accepted_description : forall s, u_description v = Some s -> s <> "";
  accepted_location : forall s, u_location v = Some s -> s <> "";
  accepted_totalTickets :
    forall n, u_totalTickets v = Some n -> 1 <= n <= MAX_SAFE_INTEGER;
  accepted_ticketPrice : forall p, u_ticketPrice v = Some p -> min0 p = true;
  accepted_availableTickets : u_availableTickets v = None
}.

Lemma updateEventSchema_validate_inr body value :
  updateEventSchema_validate body = inr value ->
  accepted_update value /\ u_totalTickets value = upd_totalTickets body.
Proof.
  unfold updateEventSchema_validate, and_then.
  destruct (Joi_string_optional "title" _) as [|t] eqn:Ht; [discriminate |].
  destruct (Joi_string_optional "description" _) as [|d] eqn:Hd;
    [discriminate |].
  destruct (Joi_string_optional "location" _) as [|l] eqn:Hl; [discriminate |].
  destruct (Joi_integer_min1_optional _ _) as [|n] eqn:Hn; [discriminate |].
  destruct (Joi_price_optional _ _) as [|p] eqn:Hp; [discriminate |].
  destruct (Joi_status_optional _ _) as [|st] eqn:Hst; [discriminate |].
  destruct (Joi_string_optional "category" _) as [|c] eqn:Hc; [discriminate |].
  intros [= <-].
  apply Joi_string_optional_inr in Hd as [_ Hd], Hl as [_ Hl].
  apply Joi_integer_min1_optional_inr in Hn as [Hn' Hn].
  apply Joi_price_optional_inr in Hp as [_ Hp].
  split; [constructor; simpl; auto | exact Hn'].
Qed.

(** An accepted update of a valid document passes the Event schema again
    unless its title trims to the empty string. *)
Lemma Object_assign_valid e v :
  Event_validate e = true -> accepted_update v ->
  (forall t, u_title v = Some t -> trim t <> "") ->
  Event_validate (Object_assign e v) = true.
Proof.
  intros He [Hd Hl Hn Hp _] Ht.
  unfold Event_validate in *.
  repeat (apply andb_prop in He as [He ?]).
  repeat (apply andb_true_intro; split); simpl.
  - destruct (u_title v) as [t|]; simpl; [| assumption].
    apply bool_decide_eq_true_2, Ht. reflexivity.
  - destruct (u_description v) as [d|]; simpl; [| assumption].
    apply bool_decide_eq_true_2, Hd. reflexivity.
  - destruct (u_location v) as [l|]; simpl; [| assumption].
    apply bool_decide_eq_true_2, Hl. reflexivity.
  - destruct (u_totalTickets v) as [n|]; simpl; [| assumption].
    specialize (Hn n eq_refl). apply Z.leb_le. lia.
  - destruct (u_ticketPrice v) as [p|]; simpl; [| assumption].
    apply Hp. reflexivity.
Qed.

(** The document that [updateEvent] saves keeps the number of booked
    tickets. *)
Lemma Object_assign_booked e v :
  accepted_update v ->
  let v' :=
    match u_totalTickets v with
    | Some n =>
        if bool_decide (n <> 0) && bool_decide (n <> totalTickets e)
        then set_u_availableTickets
               (availableTickets e + (n - totalTickets e)) v
        else v
    | None => v
    end in
  totalTickets (Object_assign e v') - availableTickets (Object_assign e v')
  = totalTickets e - availableTickets e.
Proof.
  intros [_ _ Hn _ Ha]; simpl.
  destruct (u_totalTickets v) as [n|] eqn:Hv; simpl.
  - specialize (Hn n eq_refl).
    rewrite bool_decide_eq_true_2 by lia. simpl.
    destruct (decide (n = totalTickets e)) as [-> | Hne].
    + rewrite bool_decide_eq_false_2 by (intros Hne; apply Hne; reflexivity).
      simpl. rewrite Hv, Ha. simpl. reflexivity.
    + rewrite bool_decide_eq_true_2 by exact Hne.
      simpl. rewrite Hv. simpl. lia.
  - rewrite Hv, Ha. reflexivity.
Qed.

(** C8. An accepted update by the organizer that supplies a new
    [totalTickets] sets [availableTickets] to the old value plus the
    difference of the totals, however small the new total; and no update
    request, accepted or not, changes [totalTickets - availableTickets] of
    the event. *)
Theorem updateEvent_totalTickets id db e :
  events db !! id = Some e ->
  (forall user_id body value n,
     updateEventSchema_validate body = inr value ->
     organizer e = user_id ->
     upd_totalTickets body = Some n ->
     n <> totalTickets e ->
     Event_validate e = true ->
     (forall t, upd_title body = Some t -> trim t <> "") ->
     exists e',
       updateEvent user_id id body db =
         (res_status 200 (message_event "Event updated successfully" id e'),
          set_events (<[id := e']> (events db)) db)
       /\ totalTickets e' = n
       /\ availableTickets e' = availableTickets e + (n - totalTickets e))
  /\ (forall user_id body,
      exists e',
        events (updateEvent user_id id body db).2 !! id = Some e'
        /\ totalTickets e' - availableTickets e'
           = totalTickets e - availableTickets e).
Proof.
  intros He. split.
  - intros user_id body value n Hbody Hown Hn Hne Hvalid Htitle.
    pose proof (updateEventSchema_validate_inr _ _ Hbody) as [Hacc Htot].
    assert (u_title value = upd_title body) as Htitle'.
    { revert Hbody. unfold updateEventSchema_validate, and_then.
      destruct (Joi_string_optional "title" _) as [|t] eqn:Ht; [discriminate |].
      apply Joi_string_optional_inr in Ht as [-> _].
      repeat (match goal with
              | |- context [match ?x with inl _ => _ | inr _ => _ end] =>
                  destruct x; [discriminate |]
              end).
      intros [= <-]. reflexivity. }
    rewrite Hn in Htot.
    pose proof (accepted_totalTickets _ Hacc n Htot) as Hn1.
    eexists. split; [| split].
    + unfold updateEvent. rewrite Hbody, He.
      rewrite bool_decide_eq_false_2 by (intros Hx; apply Hx, Hown).
      rewrite Htot.
      rewrite !bool_decide_eq_true_2 by (assumption || lia). simpl.
      erewrite Event_save_Some; [reflexivity | | exact He].
      apply (Object_assign_valid e value Hvalid Hacc).
      rewrite Htitle'. exact Htitle.
    + simpl. rewrite Htot. reflexivity.
    + reflexivity.
  - intros user_id body. unfold updateEvent.
    destruct (updateEventSchema_validate body) as [err|value] eqn:Hbody;
      simpl; [eauto |].
    rewrite He. case_bool_decide; simpl; [eauto |].
    pose proof (updateEventSchema_validate_inr _ _ Hbody) as [Hacc _].
    match goal with
    | |- context [Event_save id ?d db] =>
        destruct (Event_save id d db) as [db'|] eqn:Hsave; simpl; [| eauto];
        exists d
    end.
    unfold Event_save in Hsave.
    destruct (negb _); [discriminate |]. rewrite He in Hsave.
    injection Hsave as <-. simpl. rewrite lookup_insert_eq.
    split; [reflexivity |]. apply (Object_assign_booked e value Hacc).
Qed.

(** ** Publishing an event *)

(** C9. Publication by the organizer sets the status to 'published'
    whatever it was, keeps every other field of the event and every other
    document, and asked a second time changes nothing more. *)
Theorem publishEvent_by_organizer user_id id db e :
  events db !! id = Some e ->
  organizer e = user_id ->
  Event_validate e = true ->
  exists e',
    publishEvent user_id id db =
      (res_status 200 (message_event "Event published successfully" id e'),
       set_events (<[id := e']> (events db)) db)
    /\ status e' = EventStatus.published
    /\ title e' = title e
    /\ description e' = description e
    /\ organizer e' = organizer e
    /\ date e' = date e
    /\ location e' = location e
    /\ totalTickets e' = totalTickets e
    /\ availableTickets e' = availableTickets e
    /\ ticketPrice e' = ticketPrice e
    /\ category e' = category e
    /\ publishEvent user_id id (publishEvent user_id id db).2 =
         publishEvent user_id id db.
Proof.
  intros He Hown Hvalid.
  assert (forall db0 e0, events db0 !! id = Some e0 -> organizer e0 = user_id ->
            Event_validate e0 = true ->
            publishEvent user_id id db0 =
              (res_json
                 (message_event "Event published successfully" id
                    (set_status EventStatus.published e0)),
               set_events
                 (<[id := set_status EventStatus.published e0]> (events db0))
                 db0)) as Hpublish.
  { intros db0 e0 He0 Hown0 Hvalid0. unfold publishEvent. rewrite He0.
    rewrite bool_decide_eq_false_2 by (intros Hne; apply Hne, Hown0).
    erewrite Event_save_Some; [reflexivity | | exact He0].
    rewrite Event_validate_set_status. exact Hvalid0. }
  exists (set_status EventStatus.published e).
  rewrite (Hpublish db e He Hown Hvalid).
  repeat (split; [reflexivity |]).
  simpl.
  rewrite (Hpublish _ (set_status EventStatus.published e));
    [ | apply lookup_insert_eq | exact Hown
      | rewrite Event_validate_set_status; exact Hvalid ].
  simpl. rewrite insert_insert_eq. reflexivity.
Qed.

(** ** Listing events *)

Lemma EventStatus_to_string_published s :
  EventStatus.to_string s = "published" <-> s = EventStatus.published.
Proof. destruct s; simpl; split; (reflexivity || discriminate). Qed.

(** C10. Without a [status] query parameter the list holds events of the
    collection whose status is 'published', and only those; without a
    [category] parameter it holds all of them. *)
Theorem getEvents_default_status q db :
  query_status q = None ->
  exists found,
    getEvents q db = (res_status 200 (event_documents found), db)
    /\ (forall id e,
         (id, e) ∈ found ->
         events db !! id = Some e /\ status e = EventStatus.published)
    /\ (query_category q = None ->
        forall id e,
          events db !! id = Some e -> status e = EventStatus.published ->
          (id, e) ∈ found).
Proof.
  intros Hq. eexists. split; [reflexivity |]. split.
  - intros id e Hin.
    apply list_elem_of_In, filter_In in Hin as [Hin Hf].
    apply list_elem_of_In, elem_of_map_to_list in Hin.
    split; [exact Hin |].
    unfold events_filter in Hf. rewrite Hq in Hf. simpl in Hf.
    apply andb_prop in Hf as [Hf _].
    apply bool_decide_eq_true_1, EventStatus_to_string_published in Hf.
    exact Hf.
  - intros Hc id e He Hst.
    apply list_elem_of_In, filter_In. split.
    + apply list_elem_of_In, elem_of_map_to_list. exact He.
    + unfold events_filter. rewrite Hq, Hc. simpl. rewrite Hst. reflexivity.
Qed.

(** With [status=draft] in the query the drafts are listed instead. *)
Lemma getEvents_requested_status q db s id e :
  query_status q = Some (EventStatus.to_string s) ->
  query_category q = None ->
  events db !! id = Some e -> status e = s ->
  exists found,
    getEvents q db = (res_status 200 (event_documents found), db)
    /\ (id, e) ∈ found.
Proof.
  intros Hq Hc He Hst. eexists. split; [reflexivity |].
  apply list_elem_of_In, filter_In. split.
  - apply list_elem_of_In, elem_of_map_to_list. exact He.
  - unfold events_filter. rewrite Hq, Hc. simpl. rewrite Hst.
    rewrite bool_decide_eq_true_2 by reflexivity. reflexivity.
Qed.

(** ** One call of [bookTickets] run alone *)

Lemma Booking_insert_events id b db db1 :
  Booking_insert id b db = Some db1 -> events db1 = events db.
Proof.
  unfold Booking_insert.
  destruct (negb _); [discriminate |].
  destruct (bookings db !! id); [discriminate |].
  destruct (reference_taken _ _); [discriminate |].
  intros [= <-]. reflexivity.
Qed.

(** Stepped without interruption, a call of [bookTickets] answers and
    leaves the store as the handler run in one piece does. *)
Lemma book_steps_alone user_id body new_id now rnd db :
  book_steps 4 (before_findById user_id body new_id now rnd) db =
    (responded (bookTickets user_id body new_id now rnd db).1,
     (bookTickets user_id body new_id now rnd db).2).
Proof.
  unfold bookTickets; simpl.
  destruct (bookingSchema_validate body) as [err|value]; [reflexivity |].
  simpl.
  destruct (events db !! eventId value) as [e|] eqn:He; [| reflexivity].
  case_bool_decide; [reflexivity |].
  destruct (availableTickets e <? value_quantity value); [reflexivity |].
  destruct (Booking_insert _ _ db) as [db1|] eqn:Hins; [| reflexivity].
  simpl. unfold Event_save_availableTickets, Event_save.
  rewrite (Booking_insert_events _ _ _ _ Hins), He.
  destruct (negb _); reflexivity.
Qed.

(** ** Tickets held by the bookings of an event *)

Lemma booked_empty id : booked id ∅ = 0.
Proof. unfold booked. apply map_fold_empty. Qed.

Lemma booked_insert_fresh id i b (m : gmap string Booking) :
  m !! i = None ->
  booked id (<[i := b]> m) = booked id m + tickets_held id b.
Proof.
  intros Hi. unfold booked.
  rewrite map_fold_insert_L; [reflexivity | | exact Hi].
  intros; lia.
Qed.

Lemma booked_delete id i b (m : gmap string Booking) :
  m !! i = Some b ->
  booked id m = booked id (delete i m) + tickets_held id b.
Proof.
  intros Hi.
  rewrite <- (insert_delete_id m i b Hi) at 1.
  apply booked_insert_fresh, lookup_delete_eq.
Qed.

Lemma booked_insert_replace id i b b' (m : gmap string Booking) :
  m !! i = Some b ->
  booked id (<[i := b']> m)
  = booked id m - tickets_held id b + tickets_held id b'.
Proof.
  intros Hi.
  rewrite <- insert_delete_eq, booked_insert_fresh by apply lookup_delete_eq.
  rewrite (booked_delete id i b m Hi). lia.
Qed.

Lemma tickets_held_nonneg id b : Booking_validate b = true -> 0 <= tickets_held id b.
Proof.
  intros Hb. apply Booking_validate_quantity in Hb.
  unfold tickets_held. destruct (holds_tickets id b); lia.
Qed.

Lemma booked_nonneg id (m : gmap string Booking) :
  map_Forall (fun _ b => Booking_validate b = true) m -> 0 <= booked id m.
Proof.
  unfold booked.
  apply (map_fold_weak_ind
           (fun r m => map_Forall (fun _ b => Booking_validate b = true) m
                       -> 0 <= r)).
  - intros _. lia.
  - intros i b m' r Hi IH Hall.
    apply map_Forall_insert in Hall as [Hb Hall]; [| exact Hi].
    pose proof (tickets_held_nonneg id b Hb). specialize (IH Hall). lia.
Qed.

Lemma booked_no_booking id (m : gmap string Booking) :
  (forall i b, m !! i = Some b -> event b <> id) -> booked id m = 0.
Proof.
  unfold booked.
  apply (map_fold_weak_ind
           (fun r m => (forall i b, m !! i = Some b -> event b <> id) -> r = 0)).
  - reflexivity.
  - intros i b m' r Hi IH Hall.
    rewrite IH.
    + unfold tickets_held, holds_tickets.
      rewrite bool_decide_eq_false_2; [reflexivity |].
      apply (Hall i). apply lookup_insert_eq.
    + intros j b' Hj. apply (Hall j).
      rewrite lookup_insert_ne; [exact Hj |]. intros ->. congruence.
Qed.

(** ** Serialized requests keep the store consistent *)

Lemma handle_effect r db :
  inventory_consistent db -> effect r db (handle r db).2.
Proof.
  intros [Hev Hbk Href Hcount].
  destruct r as [u body new_id | u id body | u id | u body new_id now rnd | u id];
    simpl.
  - (* createEvent *)
    unfold createEvent.
    destruct (createEventSchema_validate body) as [err|value];
      [apply effect_none |].
    unfold Event_insert.
    destruct (Event_validate _) eqn:Hv; simpl; [| apply effect_none].
    destruct (events db !! new_id) eqn:Hnew; simpl; [apply effect_none |].
    apply effect_new_event; [exact Hnew | exact Hv | reflexivity].
  - (* updateEvent *)
    unfold updateEvent.
    destruct (updateEventSchema_validate body) as [err|value] eqn:Hbody;
      [apply effect_none |].
    destruct (events db !! id) as [e|] eqn:He; [| apply effect_none].
    case_bool_decide; [apply effect_none |].
    pose proof (updateEventSchema_validate_inr _ _ Hbody) as [Hacc Htot].
    pose proof (Object_assign_booked e value Hacc) as Hbooked.
    simpl in Hbooked.
    match goal with
    | |- context [Event_save id ?d db] =>
        set (e' := d) in *; unfold Event_save;
        destruct (Event_validate e') eqn:Hv; simpl; [| apply effect_none]
    end.
    rewrite He. simpl.
    apply (effect_event_update _ _ id e e' He Hv Hbooked).
    subst e'. destruct Hacc as [_ _ Hn _ Ha].
    destruct (u_totalTickets value) as [n|] eqn:Hvt.
    + right. exists u, body. split; [reflexivity |].
      rewrite <- Htot. f_equal.
      destruct (_ && _); simpl; rewrite Hvt; reflexivity.
    + left. simpl. rewrite Ha. reflexivity.
  - (* publishEvent *)
    unfold publishEvent.
    destruct (events db !! id) as [e|] eqn:He; [| apply effect_none].
    case_bool_decide; [apply effect_none |].
    unfold Event_save. rewrite Event_validate_set_status, He.
    destruct (Event_validate e) eqn:Hv; simpl; [| apply effect_none].
    apply (effect_event_update _ _ id e _ He); auto.
  - (* bookTickets *)
    unfold bookTickets.
    destruct (bookingSchema_validate body) as [err|value];
      [apply effect_none |].
    destruct (events db !! eventId value) as [e|] eqn:He; [| apply effect_none].
    case_bool_decide; [apply effect_none |].
    destruct (Z.ltb_spec (availableTickets e) (value_quantity value));
      [apply effect_none |].
    match goal with
    | |- context [Booking_insert new_id ?d db] => set (b := d) in *
    end.
    unfold Booking_insert.
    destruct (Booking_validate b) eqn:Hv; simpl; [| apply effect_none].
    destruct (bookings db !! new_id) eqn:Hnew; [apply effect_none |].
    destruct (reference_taken _ _); [apply effect_none |].
    unfold Event_save. rewrite Event_validate_set_availableTickets.
    rewrite (Hev _ _ He). simpl. rewrite He. simpl.
    apply (effect_booking _ _ (eventId value) e new_id b);
      (assumption || reflexivity || discriminate).
  - (* cancelBooking *)
    unfold cancelBooking.
    destruct (bookings db !! id) as [b|] eqn:Hb; [| apply effect_none].
    case_bool_decide; [apply effect_none |].
    case_bool_decide; [apply effect_none |].
    unfold Booking_save. rewrite Booking_validate_set_booking_status.
    rewrite (Hbk _ _ Hb), Hb. simpl.
    destruct (Href _ _ Hb) as [e He]. rewrite He.
    unfold Event_save. rewrite Event_validate_set_availableTickets.
    rewrite (Hev _ _ He). simpl. rewrite He.
    apply (effect_cancellation _ _ id b e); assumption.
Qed.

Lemma Event_validate_totalTickets e :
  Event_validate e = true -> 1 <= totalTickets e.
Proof.
  unfold Event_validate. intros H.
  repeat (apply andb_prop in H as [H ?]). lia.
Qed.

Lemma tickets_held_cancelled id b :
  tickets_held id (set_booking_status BookingStatus.cancelled b) = 0.
Proof.
  unfold tickets_held, holds_tickets; simpl.
  destruct (bool_decide (event b = id)); reflexivity.
Qed.

Lemma tickets_held_other id b : event b <> id -> tickets_held id b = 0.
Proof.
  intros Hne. unfold tickets_held, holds_tickets.
  rewrite bool_decide_eq_false_2 by exact Hne. reflexivity.
Qed.

Lemma tickets_held_own b :
  booking_status b <> BookingStatus.cancelled ->
  tickets_held (event b) b = quantity b.
Proof.
  intros Hst. unfold tickets_held, holds_tickets.
  rewrite bool_decide_eq_true_2 by reflexivity.
  rewrite bool_decide_eq_true_2 by exact Hst. reflexivity.
Qed.

Lemma effect_consistent r db db' :
  inventory_consistent db -> effect r db db' -> inventory_consistent db'.
Proof.
  intros [Hev Hbk Href Hcount] Heff.
  destruct Heff as [ | id ev Hnew Hv Hfull | id e e' He Hv Hsame _
                   | id e new_id b j He Hnew Hv Hid Hst Hq | id b e Hb Hst He ].
  - constructor; assumption.
  - constructor; simpl.
    + apply map_Forall_insert_2; assumption.
    + exact Hbk.
    + intros i b Hb. destruct (Href i b Hb) as [e He].
      rewrite lookup_insert_ne; [eauto |]. intros Heq. congruence.
    + intros i e. rewrite lookup_insert.
      case_decide as Hi; [| apply Hcount].
      intros [= <-]. subst i. rewrite booked_no_booking; [lia |].
      intros j b Hb <-. destruct (Href j b Hb) as [e He]. congruence.
  - constructor; simpl.
    + apply map_Forall_insert_2; assumption.
    + exact Hbk.
    + intros i b Hb. apply lookup_insert_is_Some'. right. eauto.
    + intros i e0. rewrite lookup_insert.
      case_decide as Hi; [| apply Hcount].
      intros [= <-]. subst i. rewrite Hsame. apply Hcount, He.
  - constructor; simpl.
    + apply map_Forall_insert_2;
        [rewrite Event_validate_set_availableTickets; eauto | exact Hev].
    + apply map_Forall_insert_2; assumption.
    + intros i b0 Hb0. apply lookup_insert_is_Some'. right.
      apply lookup_insert_Some in Hb0 as [[_ <-] | [_ Hb0]]; [| eauto].
      rewrite Hid. eauto.
    + intros i e0. rewrite booked_insert_fresh by exact Hnew.
      rewrite lookup_insert. case_decide as Hi.
      * intros [= <-]. subst i. simpl. rewrite <- Hid at 2.
        rewrite tickets_held_own by exact Hst.
        specialize (Hcount _ _ He). lia.
      * intros He0. rewrite tickets_held_other by congruence.
        rewrite <- (Hcount _ _ He0). lia.
  - constructor; simpl.
    + apply map_Forall_insert_2;
        [rewrite Event_validate_set_availableTickets; eauto | exact Hev].
    + apply map_Forall_insert_2;
        [rewrite Booking_validate_set_booking_status; eauto | exact Hbk].
    + intros i b0 Hb0. apply lookup_insert_is_Some'. right.
      apply lookup_insert_Some in Hb0 as [[_ <-] | [_ Hb0]]; simpl; eauto.
    + intros i e0. rewrite (booked_insert_replace i id b) by exact Hb.
      rewrite tickets_held_cancelled.
      rewrite lookup_insert. case_decide as Hi.
      * intros [= <-]. subst i. simpl.
        rewrite tickets_held_own by exact Hst.
        specialize (Hcount _ _ He). lia.
      * intros He0. rewrite tickets_held_other by congruence.
        rewrite <- (Hcount _ _ He0). lia.
Qed.

Lemma effect_never_negative r db db' :
  inventory_consistent db -> never_negative db -> covers_booked r db ->
  effect r db db' -> never_negative db'.
Proof.
  intros [Hev Hbk Href Hcount] Hpos Hcover Heff.
  destruct Heff as [ | id ev Hnew Hv Hfull | id e e' He Hv Hsame Hhow
                   | id e new_id b j He Hnew Hv Hid Hst Hq | id b e Hb Hst He ];
    [exact Hpos | | | | ]; intros i e0; simpl; rewrite lookup_insert;
    (case_decide as Hi; [| apply Hpos]); intros [= <-].
  - apply Event_validate_totalTickets in Hv. lia.
  - destruct Hhow as [-> | (u & body & -> & Hn)]; [eauto |].
    specialize (Hcover e _ He Hn). lia.
  - simpl. lia.
  - simpl. specialize (Hpos _ _ He).
    pose proof (Booking_validate_quantity b (Hbk _ _ Hb)). lia.
Qed.

Lemma empty_db_consistent : inventory_consistent empty_db.
Proof.
  constructor; simpl.
  - apply map_Forall_empty.
  - apply map_Forall_empty.
  - intros id b Hb. rewrite lookup_empty in Hb. discriminate.
  - intros id e He. rewrite lookup_empty in He. discriminate.
Qed.

(** Deleting an event leaves valid documents behind (but may leave
    bookings without their event). *)
Lemma deleteEvent_valid user_id id db :
  map_Forall (fun _ e => Event_validate e = true) (events db) ->
  map_Forall (fun _ e => Event_validate e = true)
    (events (deleteEvent user_id id db).2)
  /\ bookings (deleteEvent user_id id db).2 = bookings db.
Proof.
  intros Hev. unfold deleteEvent.
  destruct (events db !! id); [| split; [exact Hev | reflexivity]].
  case_bool_decide; simpl; split;
    [exact Hev | reflexivity | apply map_Forall_delete, Hev | reflexivity].
Qed.

(** Every store reached by serving requests one after the other is
    consistent, and no event of it has more tickets available than it has in
    total. *)
Lemma run_consistent rs db :
  inventory_consistent db -> inventory_consistent (run rs db).
Proof.
  revert db. induction rs as [| r rs IH]; intros db Hdb; simpl; [exact Hdb |].
  apply IH. eapply effect_consistent; [exact Hdb | apply handle_effect, Hdb].
Qed.

Lemma consistent_upper_bound db id e :
  inventory_consistent db -> events db !! id = Some e ->
  availableTickets e <= totalTickets e.
Proof.
  intros [_ Hbk _ Hcount] He.
  pose proof (booked_nonneg id _ Hbk). specialize (Hcount _ _ He). lia.
Qed.

(** X1. In every store reached from the empty one by createEvent, updateEvent,
    publishEvent, bookTickets and cancelBooking requests served one after
    the other, no event has more tickets available than it has in total; and
    none has a negative number available as long as no update lowers
    [totalTickets] below the number of booked tickets. *)
Theorem run_inventory_bounds rs id e :
  events (run rs empty_db) !! id = Some e ->
  availableTickets e <= totalTickets e
  /\ (all_cover_booked rs empty_db -> 0 <= availableTickets e).
Proof.
  assert (forall rs db,
            inventory_consistent db -> never_negative db ->
            all_cover_booked rs db -> never_negative (run rs db)) as Hrun.
  { intros rs0. induction rs0 as [| r rs0 IH]; intros db Hdb Hpos Hall;
      simpl; [exact Hpos |].
    destruct Hall as [Hr Hall].
    pose proof (handle_effect r db Hdb) as Heff.
    apply IH; [eapply effect_consistent | eapply effect_never_negative | ];
      eassumption. }
  intros He. split.
  - eapply consistent_upper_bound; [| exact He].
    apply run_consistent, empty_db_consistent.
  - intros Hall.
    eapply (Hrun rs empty_db); [apply empty_db_consistent | | exact Hall | exact He].
    intros i e0 He0. simpl in He0. rewrite lookup_empty in He0. discriminate.
Qed.

(** X2. The tickets missing from an event are exactly those that its confirmed
    and pending bookings hold, in every store reached from the empty one by
    createEvent, updateEvent, publishEvent, bookTickets and cancelBooking
    requests served one after the other. *)
Theorem run_tickets_accounted rs id e :
  events (run rs empty_db) !! id = Some e ->
  totalTickets e - availableTickets e = booked id (bookings (run rs empty_db)).
Proof.
  intros He.
  apply (consistent_counts _ (run_consistent rs _ empty_db_consistent)), He.
Qed.

(** X3. As long as no event is deleted, every booking of the store is for an
    event of the store, is for one ticket at least and has a reference. *)
Theorem run_bookings_have_their_event rs id b :
  bookings (run rs empty_db) !! id = Some b ->
  is_Some (events (run rs empty_db) !! event b)
  /\ 1 <= quantity b
  /\ bookingReference b <> "".
Proof.
  intros Hb.
  pose proof (run_consistent rs _ empty_db_consistent) as [_ Hvalid Href _].
  split; [eapply Href, Hb |].
  specialize (Hvalid _ _ Hb). simpl in Hvalid.
  split; [apply Booking_validate_quantity, Hvalid |].
  unfold Booking_validate in Hvalid.
  apply andb_prop in Hvalid as [_ Hvalid].
  apply bool_decide_eq_true_1 in Hvalid. exact Hvalid.
Qed.

(** * Further properties of the handlers *)

(** ** What a request does to the bookings *)

(** A request leaves the bookings alone, inserts one booking under an unused
    [_id] and an unused reference, or marks one booking as cancelled. *)
Lemma serve_bookings c db :
  let m := bookings db in
  let m' := bookings (serve c db) in
  m' = m
  \/ (exists id b,
        m !! id = None /\ reference_taken (bookingReference b) m = false
        /\ m' = <[id := b]> m)
  \/ (exists id b,
        m !! id = Some b /\ booking_status b <> BookingStatus.cancelled
        /\ m' = <[id := set_booking_status BookingStatus.cancelled b]> m).
Proof.
  destruct c as [[u body new_id | u id body | u id | u body new_id now rnd
                 | u id] | u id]; simpl.
  - unfold createEvent, Event_insert.
    destruct (createEventSchema_validate body); simpl; auto.
    destruct (negb _); simpl; auto.
    destruct (events db !! new_id); simpl; auto.
  - unfold updateEvent, Event_save.
    destruct (updateEventSchema_validate body); simpl; auto.
    destruct (events db !! id) eqn:He; simpl; auto.
    case_bool_decide; simpl; auto.
    destruct (negb _); simpl; auto.
  - unfold publishEvent, Event_save.
    destruct (events db !! id) eqn:He; simpl; auto.
    case_bool_decide; simpl; auto.
    destruct (negb _); simpl; auto.
  - unfold bookTickets.
    destruct (bookingSchema_validate body) as [err|value]; simpl; auto.
    destruct (events db !! eventId value) as [e|]; simpl; auto.
    case_bool_decide; simpl; auto.
    destruct (availableTickets e <? value_quantity value); simpl; auto.
    match goal with
    | |- context [Booking_insert new_id ?d db] => set (b := d)
    end.
    unfold Booking_insert.
    destruct (negb (Booking_validate b)); simpl; auto.
    destruct (bookings db !! new_id) eqn:Hnew; simpl; auto.
    destruct (reference_taken _ (bookings db)) eqn:Href; simpl; auto.
    right; left. exists new_id, b.
    unfold Event_save.
    destruct (negb _); simpl; auto.
    destruct (events db !! eventId value); simpl; auto.
  - unfold cancelBooking.
    destruct (bookings db !! id) as [b|] eqn:Hb; simpl; auto.
    case_bool_decide; simpl; auto.
    case_bool_decide as Hst; simpl; auto.
    unfold Booking_save.
    destruct (negb _); simpl; auto.
    rewrite Hb.
    right; right. exists id, b. simpl.
    destruct (events db !! event b); simpl; auto.
    unfold Event_save.
    destruct (negb _); simpl; auto.
    destruct (events db !! event b); simpl; auto.
  - unfold deleteEvent.
    destruct (events db !! id); simpl; auto.
    case_bool_decide; simpl; auto.
Qed.

Lemma reference_taken_false r (m : gmap string Booking) i b :
  reference_taken r m = false -> m !! i = Some b -> bookingReference b <> r.
Proof.
  unfold reference_taken. intros Hr Hi Heq.
  apply bool_decide_eq_false_1 in Hr. apply Hr. exists i, b. auto.
Qed.

(** X4. A booking is never deleted and none of its fields but the status ever
    changes; the status changes to 'cancelled' only, and stays so; whatever
    requests are served (deletions of events included). *)
Theorem bookings_only_get_cancelled cs db id b :
  bookings db !! id = Some b ->
  exists b',
    bookings (serve_all cs db) !! id = Some b'
    /\ customer b' = customer b
    /\ event b' = event b
    /\ quantity b' = quantity b
    /\ totalPrice b' = totalPrice b
    /\ bookingReference b' = bookingReference b
    /\ (booking_status b' = booking_status b
        \/ booking_status b' = BookingStatus.cancelled)
    /\ (booking_status b = BookingStatus.cancelled ->
        booking_status b' = BookingStatus.cancelled).
Proof.
  revert db b. induction cs as [| c cs IH]; intros db b Hb; simpl.
  - exists b. repeat split; auto.
  - assert (exists b1,
              bookings (serve c db) !! id = Some b1
              /\ customer b1 = customer b /\ event b1 = event b
              /\ quantity b1 = quantity b /\ totalPrice b1 = totalPrice b
              /\ bookingReference b1 = bookingReference b
              /\ (booking_status b1 = booking_status b
                  \/ booking_status b1 = BookingStatus.cancelled)
              /\ (booking_status b = BookingStatus.cancelled ->
                  booking_status b1 = BookingStatus.cancelled)) as Hstep.
    { destruct (serve_bookings c db)
        as [Hsame | [(i & b0 & Hi & _ & Hins) | (i & b0 & Hi & Hst & Hcan)]];
        simpl in *.
      - exists b. rewrite Hsame. repeat split; auto.
      - exists b. rewrite Hins, lookup_insert_ne by congruence.
        repeat split; auto.
      - destruct (decide (i = id)) as [-> | Hne].
        + exists (set_booking_status BookingStatus.cancelled b0).
          rewrite Hcan, lookup_insert_eq. simplify_eq.
          repeat split; auto.
        + exists b. rewrite Hcan, lookup_insert_ne by exact Hne.
          repeat split; auto. }
    destruct Hstep as (b1 & Hb1 & Hc & He & Hq & Hp & Hr & Hs & Hcs).
    destruct (IH _ _ Hb1) as (b' & Hb' & Hc' & He' & Hq' & Hp' & Hr' & Hs' & Hcs').
    exists b'. split; [exact Hb' |].
    repeat split; try congruence.
    + destruct Hs as [Hs | Hs]; [rewrite <- Hs; exact Hs' | right; auto].
    + intros Hcanc. apply Hcs'. auto.
Qed.

(** X5. The bookings of a store built by serving requests have pairwise
    different references. *)
Theorem references_stay_unique cs :
  references_unique (bookings (serve_all cs empty_db)).
Proof.
  assert (forall cs db,
            references_unique (bookings db) ->
            references_unique (bookings (serve_all cs db))) as Hall.
  { intros cs0. induction cs0 as [| c cs0 IH]; intros db Hdb; simpl;
      [exact Hdb |].
    apply IH.
    destruct (serve_bookings c db)
      as [Hsame | [(i & b0 & Hi & Href & Hins) | (i & b0 & Hi & Hst & Hcan)]];
      simpl in *.
    - rewrite Hsame. exact Hdb.
    - rewrite Hins. intros j k bj bk Hj Hk Heq.
      apply lookup_insert_Some in Hj as [[<- <-] | [Hji Hj]],
            Hk as [[<- <-] | [Hki Hk]]; auto.
      + exfalso. eapply reference_taken_false; eauto.
      + exfalso. eapply reference_taken_false; eauto.
      + eapply Hdb; eauto.
    - rewrite Hcan. intros j k bj bk Hj Hk Heq.
      apply lookup_insert_Some in Hj as [[<- <-] | [Hji Hj]],
            Hk as [[<- <-] | [Hki Hk]]; auto; simpl in Heq.
      + eapply Hdb; eauto.
      + eapply Hdb; eauto.
      + eapply Hdb; eauto. }
  apply Hall. intros i j bi bj Hi. simpl in Hi.
  rewrite lookup_empty in Hi. discriminate.
Qed.

(** ** What a request does to the events *)

(** A request of [handle] leaves the events alone, inserts a draft with all
    its tickets available under an unused [_id], or replaces an event by one
    of the same organizer. *)
Lemma handle_events r db :
  let m := events db in
  let m' := events (handle r db).2 in
  m' = m
  \/ (exists id e,
        m !! id = None /\ status e = EventStatus.draft
        /\ availableTickets e = totalTickets e /\ m' = <[id := e]> m)
  \/ (exists id e e',
        m !! id = Some e /\ organizer e' = organizer e /\ m' = <[id := e']> m).
Proof.
  destruct r as [u body new_id | u id body | u id | u body new_id now rnd
                | u id]; simpl.
  - unfold createEvent, Event_insert.
    destruct (createEventSchema_validate body); simpl; auto.
    destruct (negb _); simpl; auto.
    destruct (events db !! new_id) eqn:Hnew; simpl; auto.
    right; left. eexists _, _.
    split; [exact Hnew | split; [| split; [| reflexivity]]; reflexivity].
  - unfold updateEvent, Event_save.
    destruct (updateEventSchema_validate body); simpl; auto.
    destruct (events db !! id) as [e|] eqn:He; simpl; auto.
    case_bool_decide; simpl; auto.
    destruct (negb _); simpl; auto.
    try rewrite He; simpl.
    right; right. eexists _, e, _.
    split; [exact He | split; [| reflexivity]; reflexivity].
  - unfold publishEvent, Event_save.
    destruct (events db !! id) as [e|] eqn:He; simpl; auto.
    case_bool_decide; simpl; auto.
    destruct (negb _); simpl; auto.
    try rewrite He; simpl.
    right; right. eexists _, e, _.
    split; [exact He | split; [| reflexivity]; reflexivity].
  - unfold bookTickets.
    destruct (bookingSchema_validate body) as [err|value]; simpl; auto.
    destruct (events db !! eventId value) as [e|] eqn:He; simpl; auto.
    case_bool_decide; simpl; auto.
    destruct (availableTickets e <? value_quantity value); simpl; auto.
    destruct (Booking_insert _ _ db) as [db1|] eqn:Hins; simpl; auto.
    apply Booking_insert_events in Hins.
    unfold Event_save.
    destruct (negb _); simpl; [left; exact Hins |].
    rewrite Hins; try rewrite He; simpl.
    right; right. eexists _, e, _.
    split; [exact He | split; [| reflexivity]; reflexivity].
  - unfold cancelBooking.
    destruct (bookings db !! id) as [b|] eqn:Hb; simpl; auto.
    case_bool_decide; simpl; auto.
    case_bool_decide; simpl; auto.
    unfold Booking_save.
    destruct (negb _); simpl; auto.
    try rewrite Hb; simpl.
    destruct (events db !! event b) as [e|] eqn:He; simpl; auto.
    unfold Event_save.
    destruct (negb _); simpl; auto.
    try rewrite He; simpl.
    right; right. eexists _, e, _.
    split; [exact He | split; [| reflexivity]; reflexivity].
Qed.

(** X6. Without deletions an event stays in the collection and keeps its
    organizer: no request hands an event over to another account. *)
Theorem organizer_never_changes rs db id e :
  events db !! id = Some e ->
  exists e',
    events (run rs db) !! id = Some e' /\ organizer e' = organizer e.
Proof.
  revert db e. induction rs as [| r rs IH]; intros db e He; simpl; [eauto |].
  assert (exists e1,
            events (handle r db).2 !! id = Some e1
            /\ organizer e1 = organizer e) as (e1 & He1 & Ho1).
  { destruct (handle_events r db)
      as [Hsame | [(i & e0 & Hi & _ & _ & Hins) | (i & e0 & e0' & Hi & Ho & Hrep)]];
      simpl in *.
    - rewrite Hsame. eauto.
    - rewrite Hins, lookup_insert_ne by congruence. eauto.
    - rewrite Hrep. destruct (decide (i = id)) as [-> | Hne].
      + rewrite lookup_insert_eq. simplify_eq. eauto.
      + rewrite lookup_insert_ne by exact Hne. eauto. }
  destruct (IH _ _ He1) as (e' & He' & Ho'). exists e'. split; congruence.
Qed.

(** X7. [bookTickets] and [cancelBooking] change nothing of the events but
    [availableTickets] of the event that the request is about: they create
    and remove no event, touch no other event and no other field. *)
Theorem booking_handlers_frame db id :
  (forall user_id body new_id now rnd,
     let db' := (bookTickets user_id body new_id now rnd db).2 in
     (body_eventId body <> Some id -> events db' !! id = events db !! id)
     /\ (events db !! id = None -> events db' !! id = None)
     /\ (forall e,
          events db !! id = Some e ->
          exists n, events db' !! id = Some (set_availableTickets n e)))
  /\ (forall user_id booking_id,
       let db' := (cancelBooking user_id booking_id db).2 in
       ((event <$> bookings db !! booking_id) <> Some id ->
        events db' !! id = events db !! id)
       /\ (events db !! id = None -> events db' !! id = None)
       /\ (forall e,
            events db !! id = Some e ->
            exists n, events db' !! id = Some (set_availableTickets n e))).
Proof.
  assert (forall (P : Prop) (m' : gmap string Event),
            m' = events db ->
            (P -> m' !! id = events db !! id)
            /\ (events db !! id = None -> m' !! id = None)
            /\ (forall e,
                 events db !! id = Some e ->
                 exists n, m' !! id = Some (set_availableTickets n e)))
    as Hsame.
  { intros P m' ->. repeat split; auto.
    intros e He. exists (availableTickets e). rewrite He.
    destruct e; reflexivity. }
  split.
  - intros u body new_id now rnd. unfold bookTickets; simpl.
    destruct (bookingSchema_validate body) as [err|value] eqn:Hbody; simpl;
      [apply Hsame; reflexivity |].
    destruct (events db !! eventId value) as [e0|] eqn:He0; simpl;
      [| apply Hsame; reflexivity].
    case_bool_decide; simpl; [apply Hsame; reflexivity |].
    destruct (availableTickets e0 <? value_quantity value); simpl;
      [apply Hsame; reflexivity |].
    destruct (Booking_insert _ _ db) as [db1|] eqn:Hins; simpl;
      [| apply Hsame; reflexivity].
    apply Booking_insert_events in Hins.
    unfold Event_save.
    destruct (negb _); simpl; [apply Hsame; exact Hins |].
    rewrite Hins; try rewrite He0; simpl.
    apply bookingSchema_validate_inr in Hbody as (Hid & _).
    repeat split.
    + intros Hne. apply lookup_insert_ne. congruence.
    + intros Hnone. rewrite lookup_insert_ne; congruence.
    + intros e He. destruct (decide (eventId value = id)) as [<- | Hne].
      * rewrite lookup_insert_eq. simplify_eq. eauto.
      * rewrite lookup_insert_ne by exact Hne.
        exists (availableTickets e). rewrite He. destruct e; reflexivity.
  - intros u bid. unfold cancelBooking; simpl.
    destruct (bookings db !! bid) as [b|] eqn:Hb; simpl;
      [| apply Hsame; reflexivity].
    case_bool_decide; simpl; [apply Hsame; reflexivity |].
    case_bool_decide; simpl; [apply Hsame; reflexivity |].
    unfold Booking_save.
    destruct (negb _); simpl; [apply Hsame; reflexivity |].
    try rewrite Hb; simpl.
    destruct (events db !! event b) as [e0|] eqn:He0; simpl;
      [| apply Hsame; reflexivity].
    unfold Event_save.
    destruct (negb _); simpl; [apply Hsame; reflexivity |].
    try rewrite He0; simpl.
    repeat split.
    + intros Hne. apply lookup_insert_ne. congruence.
    + intros Hnone. rewrite lookup_insert_ne; congruence.
    + intros e He. destruct (decide (event b = id)) as [<- | Hne].
      * rewrite lookup_insert_eq. simplify_eq. eauto.
      * rewrite lookup_insert_ne by exact Hne.
        exists (availableTickets e). rewrite He. destruct e; reflexivity.
Qed.

(** ** Deleting an event *)

(** X8. The organizer deletes an event: only that event leaves the collection,
    its bookings stay as they are, and from then on every handler that is
    given its id answers 404. *)
Theorem deleteEvent_by_organizer user_id id db e :
  events db !! id = Some e ->
  organizer e = user_id ->
  let deleted := deleteEvent user_id id db in
  let db' := deleted.2 in
  deleted.1 = res_status 200 (message "Event deleted successfully")
  /\ events db' = delete id (events db)
  /\ bookings db' = bookings db
  /\ jobs db' = jobs db
  /\ (getEventById id db').1 = (404, event_message "Event not found")
  /\ (forall u, (deleteEvent u id db').1
                = res_status 404 (message "Event not found"))
  /\ (forall u, (publishEvent u id db').1
                = res_status 404 (message "Event not found"))
  /\ (forall u, (getEventBookings u id db').1
                = (404, bookings_message "Event not found"))
  /\ (forall u body value,
       updateEventSchema_validate body = inr value ->
       (updateEvent u id body db').1
       = res_status 404 (message "Event not found"))
  /\ (forall u body value new_id now rnd,
       bookingSchema_validate body = inr value -> eventId value = id ->
       bookTickets u body new_id now rnd db'
       = (res_status 404 (message "Event not found"), db')).
Proof.
  intros He Hown; simpl.
  assert (deleteEvent user_id id db
          = (res_json (message "Event deleted successfully"),
             set_events (delete id (events db)) db)) as ->.
  { unfold deleteEvent. rewrite He.
    rewrite bool_decide_eq_false_2 by (intros Hne; apply Hne, Hown).
    reflexivity. }
  simpl.
  assert (delete id (events db) !! id = None) as Hgone
    by apply lookup_delete_eq.
  repeat split.
  - unfold getEventById; simpl. rewrite Hgone. reflexivity.
  - intros u. unfold deleteEvent; simpl. rewrite Hgone. reflexivity.
  - intros u. unfold publishEvent; simpl. rewrite Hgone. reflexivity.
  - intros u. unfold getEventBookings; simpl. rewrite Hgone. reflexivity.
  - intros u body value Hbody. unfold updateEvent; simpl.
    rewrite Hbody, Hgone. reflexivity.
  - intros u body value new_id now rnd Hbody Hid. unfold bookTickets; simpl.
    rewrite Hbody, Hid, Hgone. reflexivity.
Qed.

(** X9. A customer cancels a booking after the organizer deleted its event: the
    answer is 500, yet the booking is saved as cancelled, and no event gets
    the tickets back; asked again, the answer is 400. *)
Theorem cancelBooking_after_deleteEvent organizer_id customer_id id db e b :
  events db !! event b = Some e ->
  organizer e = organizer_id ->
  bookings db !! id = Some b ->
  customer b = customer_id ->
  booking_status b <> BookingStatus.cancelled ->
  Booking_validate b = true ->
  let db1 := (deleteEvent organizer_id (event b) db).2 in
  let cancelled_ := cancelBooking customer_id id db1 in
  code cancelled_.1 = 500
  /\ bookings cancelled_.2 =
       <[id := set_booking_status BookingStatus.cancelled b]> (bookings db)
  /\ events cancelled_.2 = delete (event b) (events db)
  /\ cancelBooking customer_id id cancelled_.2 =
       (res_status 400 (message "Booking is already cancelled"), cancelled_.2).
Proof.
  intros He Horg Hb Hcust Hst Hvalid; simpl.
  assert (deleteEvent organizer_id (event b) db
          = (res_json (message "Event deleted successfully"),
             set_events (delete (event b) (events db)) db)) as ->.
  { unfold deleteEvent. rewrite He.
    rewrite bool_decide_eq_false_2 by (intros Hne; apply Hne, Horg).
    reflexivity. }
  simpl.
  rewrite (cancelBooking_event_gone customer_id id _ b);
    [ | exact Hb | exact Hcust | exact Hst | exact Hvalid
      | simpl; apply lookup_delete_eq ].
  simpl. repeat split.
  unfold cancelBooking; simpl. rewrite lookup_insert_eq. simpl.
  rewrite bool_decide_eq_false_2 by (intros Hne; apply Hne, Hcust).
  reflexivity.
Qed.

(** ** Who may read and cancel a booking *)

(** X10. An existing booking is shown (200) exactly to its customer and to the
    organizer of its event, provided the event is still there for the
    organizer to be checked; the store is never changed. *)
Theorem getBookingById_shown_to user_id id db b :
  bookings db !! id = Some b ->
  (getBookingById user_id id db).2 = db
  /\ (code (getBookingById user_id id db).1 = 200 <->
      customer b = user_id
      \/ exists e, events db !! event b = Some e /\ organizer e = user_id)
  /\ (code (getBookingById user_id id db).1 = 200 ->
      (getBookingById user_id id db).1 = res_json (booking_document id b)).
Proof.
  intros Hb. unfold getBookingById. rewrite Hb.
  case_bool_decide as Hc; simpl.
  - destruct (events db !! event b) as [e|] eqn:He; simpl.
    + case_bool_decide as Ho; simpl.
      * split; [reflexivity | split; [split |]]; try discriminate.
        intros [Hx | (e' & Hx & Hy)]; [contradiction |].
        injection Hx as <-. contradiction.
      * split; [reflexivity | split; [split |]]; try reflexivity.
        intros _. right. exists e. split; [reflexivity |].
        destruct (decide (organizer e = user_id)); [assumption | contradiction].
    + split; [reflexivity | split; [split |]]; try discriminate.
      intros [Hx | (e' & Hx & _)]; [contradiction | discriminate].
  - split; [reflexivity | split; [split |]]; try reflexivity.
    intros _. left.
    destruct (decide (customer b = user_id)); [assumption | contradiction].
Qed.


(** ** A booking is made entirely or not at all *)

(** X12. In a collection of valid events [bookTickets] answers 201, 400, 404 or
    500; with 201 it has inserted one booking under an unused [_id] and
    queued one job; with any other answer the store is unchanged, so no
    booking is left without its decrement. *)
Theorem bookTickets_all_or_nothing user_id body new_id now rnd db :
  map_Forall (fun _ e => Event_validate e = true) (events db) ->
  let result := bookTickets user_id body new_id now rnd db in
  (code result.1 = 201
   /\ bookings db !! new_id = None
   /\ (exists b, bookings result.2 = <[new_id := b]> (bookings db))
   /\ length (jobs result.2) = S (length (jobs db)))
  \/ ((code result.1 = 400 \/ code result.1 = 404 \/ code result.1 = 500)
      /\ result.2 = db).
Proof.
  intros Hvalid; simpl. unfold bookTickets.
  destruct (bookingSchema_validate body) as [err|value]; simpl; auto.
  destruct (events db !! eventId value) as [e|] eqn:He; simpl; auto 6.
  case_bool_decide; simpl; auto.
  destruct (availableTickets e <? value_quantity value); simpl; auto.
  match goal with
  | |- context [Booking_insert new_id ?d db] => set (b := d)
  end.
  unfold Booking_insert.
  destruct (negb (Booking_validate b)); simpl; auto 6.
  destruct (bookings db !! new_id) eqn:Hnew; simpl; auto 6.
  destruct (reference_taken _ (bookings db)); simpl; auto 6.
  unfold Event_save. rewrite Event_validate_set_availableTickets.
  rewrite (Hvalid _ _ He). simpl. rewrite He. simpl.
  left. split; [reflexivity | split; [reflexivity | split; [eauto |]]].
  rewrite length_app. simpl. lia.
Qed.

(** ** Creating an event *)

(** X13. [createEvent] answers 201, 400 or 500.  With 201 it has added, under an
    unused [_id], a draft that belongs to the caller and has all its
    tickets available, between 1 and [MAX_SAFE_INTEGER] of them; otherwise
    the store is unchanged.  It never replaces an event. *)
Theorem createEvent_adds_draft user_id body new_id db :
  let result := createEvent user_id body new_id db in
  (code result.1 = 201
   /\ events db !! new_id = None
   /\ exists e,
        result.2 = set_events (<[new_id := e]> (events db)) db
        /\ status e = EventStatus.draft
        /\ organizer e = user_id
        /\ new_totalTickets body = Some (totalTickets e)
        /\ availableTickets e = totalTickets e
        /\ 1 <= totalTickets e <= MAX_SAFE_INTEGER)
  \/ ((code result.1 = 400 \/ code result.1 = 500) /\ result.2 = db).
Proof.
  simpl. unfold createEvent.
  destruct (createEventSchema_validate body) as [err|value] eqn:Hbody;
    simpl; auto.
  unfold Event_insert.
  destruct (negb _); simpl; auto.
  destruct (events db !! new_id) eqn:Hnew; simpl; auto.
  left. split; [reflexivity | split; [reflexivity |]].
  eexists. split; [reflexivity |]. simpl.
  split; [reflexivity | split; [reflexivity |]].
  revert Hbody.
  unfold createEventSchema_validate, and_then.
  repeat (match goal with
          | |- context [match ?x with inl _ => _ | inr _ => _ end] =>
              destruct x eqn:?; [discriminate |]
          end).
  intros [= <-]. simpl.
  match goal with
  | H : Joi_integer_min1_required _ _ = inr _ |- _ =>
      unfold Joi_integer_min1_required in H;
      destruct (new_totalTickets body) as [tickets|]; [| discriminate];
      apply Joi_integer_min1_inr in H as [-> Htickets]
  end.
  auto.
Qed.

(** X14. A title of white space only passes [Joi.string().required()] but not the
    [required] validator of the schema once the setter has trimmed it:
    [createEvent], and [updateEvent] by the organizer, answer 500 and store
    nothing. *)
Theorem blank_title_is_a_server_error user_id id body db :
  (forall value new_id,
     createEventSchema_validate body = inr value ->
     trim (c_title value) = "" ->
     createEvent user_id body new_id db =
       (res_status 500 (error_message "Error creating event"), db))
  /\ (forall update value e t,
       updateEventSchema_validate update = inr value ->
       events db !! id = Some e -> organizer e = user_id ->
       u_title value = Some t -> trim t = "" ->
       updateEvent user_id id update db =
         (res_status 500 (error_message "Error updating event"), db)).
Proof.
  split.
  - intros value new_id Hbody Hblank. unfold createEvent. rewrite Hbody.
    unfold Event_insert, Event_validate; simpl. rewrite Hblank.
    reflexivity.
  - intros update value e t Hbody He Hown Ht Hblank.
    unfold updateEvent. rewrite Hbody, He.
    rewrite bool_decide_eq_false_2 by (intros Hne; apply Hne, Hown).
    unfold Event_save, Event_validate.
    match goal with
    | |- context [title (Object_assign e ?v)] =>
        assert (title (Object_assign e v) = "") as ->
    end.
    { simpl. destruct (u_totalTickets value); [destruct (_ && _) |];
        simpl; rewrite Ht; exact Hblank. }
    reflexivity.
Qed.

(** ** Listing and reading events *)

(** X15. [getEvents] lists each event of the collection at most once, and
    exactly those whose status is spelled like the [status] parameter
    ('published' when there is none) and, when a non-empty [category] is
    given, whose category is that parameter trimmed; so a [status] that is
    not one of the three statuses lists nothing. *)
Theorem getEvents_lists q db :
  exists found,
    getEvents q db = (res_status 200 (event_documents found), db)
    /\ NoDup found.*1
    /\ (forall id e,
         (id, e) ∈ found <->
         events db !! id = Some e
         /\ EventStatus.to_string (status e)
            = default "published" (query_status q)
         /\ (forall c, query_category q = Some c -> c <> "" ->
                       category e = Some (trim c)))
    /\ (EventStatus.of_string (default "published" (query_status q)) = None ->
        found = []).
Proof.
  eexists. split; [reflexivity |].
  assert (forall id e,
            (id, e) ∈ List.filter (fun kv => events_filter q kv.2)
                        (map_to_list (events db)) <->
            events db !! id = Some e
            /\ EventStatus.to_string (status e)
               = default "published" (query_status q)
            /\ (forall c, query_category q = Some c -> c <> "" ->
                          category e = Some (trim c))) as Hmem.
  { intros id e. rewrite list_elem_of_In, filter_In, <- list_elem_of_In.
    rewrite elem_of_map_to_list. unfold events_filter; simpl.
    rewrite andb_true_iff, bool_decide_eq_true.
    destruct (query_category q) as [c|]; [case_bool_decide as Hc |].
    - split; [intros (? & ? & _) | intros (? & ? & _)]; repeat split; auto.
      intros ? [= <-] ?. contradiction.
    - rewrite bool_decide_eq_true.
      split; [intros (? & ? & ?) | intros (? & ? & Hcat)]; repeat split; auto.
      intros ? [= <-] _. assumption.
    - split; [intros (? & ? & _) | intros (? & ? & _)]; repeat split; auto.
      discriminate. }
  split; [| split; [exact Hmem |]].
  - assert (forall l : list (string * Event),
              NoDup l.*1 ->
              NoDup (List.filter (fun kv => events_filter q kv.2) l).*1)
      as Hfilter.
    { induction l as [| kv l IH]; simpl; [auto |].
      intros Hnd. apply NoDup_cons in Hnd as [Hnotin Hnd].
      destruct (events_filter q kv.2); simpl; [| auto].
      apply NoDup_cons. split; [| auto].
      intros Hin. apply Hnotin.
      apply list_elem_of_fmap in Hin as (kv' & -> & Hin).
      apply list_elem_of_fmap. exists kv'. split; [reflexivity |].
      apply list_elem_of_In, filter_In in Hin as [Hin _].
      apply list_elem_of_In. exact Hin. }
    apply Hfilter, NoDup_fst_map_to_list.
  - intros Hunknown.
    match goal with
    | |- ?l = [] => destruct l as [| [id e] l'] eqn:Hl; [reflexivity |]
    end.
    destruct (proj1 (Hmem id e)) as (_ & Hst & _); [left |].
    rewrite <- Hst in Hunknown. destruct (status e); discriminate.
Qed.

(** X16. A new event can be read by its id at once, by anyone, but is not in the
    default list; once its organizer has published it, it is. *)
Theorem created_event_is_listed_after_publication user_id body new_id db :
  code (createEvent user_id body new_id db).1 = 201 ->
  let db1 := (createEvent user_id body new_id db).2 in
  let db2 := (publishEvent user_id new_id db1).2 in
  (exists e,
     (getEventById new_id db1).1 = (200, event_document new_id e)
     /\ status e = EventStatus.draft)
  /\ (forall c found,
       (getEvents (mkEventsQuery None c) db1).1
       = res_status 200 (event_documents found) ->
       new_id ∉ found.*1)
  /\ code (publishEvent user_id new_id db1).1 = 200
  /\ (forall found,
       (getEvents (mkEventsQuery None None) db2).1
       = res_status 200 (event_documents found) ->
       new_id ∈ found.*1).
Proof.
  unfold createEvent.
  destruct (createEventSchema_validate body) as [err|value]; simpl;
    [discriminate |].
  unfold Event_insert.
  destruct (Event_validate _) eqn:Hvalid; simpl; [| discriminate].
  destruct (events db !! new_id) eqn:Hnew; simpl; [discriminate |].
  intros _.
  match goal with
  | |- context [<[new_id := ?d]> (events db)] => set (e := d) in *
  end.
  assert (publishEvent user_id new_id
            (set_events (<[new_id := e]> (events db)) db)
          = (res_json
               (message_event "Event published successfully" new_id
                  (set_status EventStatus.published e)),
             set_events
               (<[new_id := set_status EventStatus.published e]>
                  (<[new_id := e]> (events db))) db)) as Hpublish.
  { unfold publishEvent; simpl. rewrite lookup_insert_eq.
    rewrite bool_decide_eq_false_2 by (intros Hne; apply Hne; reflexivity).
    unfold Event_save. rewrite Event_validate_set_status, Hvalid. simpl.
    rewrite lookup_insert_eq. reflexivity. }
  split; [| split; [| split]].
  - exists e. unfold getEventById; simpl. rewrite lookup_insert_eq.
    split; reflexivity.
  - intros c found [= <-] Hin.
    apply list_elem_of_fmap in Hin as ([id e'] & -> & Hin).
    apply list_elem_of_In, filter_In in Hin as [Hin Hf].
    apply list_elem_of_In, elem_of_map_to_list in Hin. simpl in Hin.
    rewrite lookup_insert_eq in Hin. injection Hin as <-.
    unfold events_filter in Hf. simpl in Hf. discriminate.
  - rewrite Hpublish. reflexivity.
  - rewrite Hpublish. simpl. intros found [= <-].
    apply list_elem_of_fmap.
    exists (new_id, set_status EventStatus.published e).
    split; [reflexivity |].
    apply list_elem_of_In, filter_In. split; [| reflexivity].
    apply list_elem_of_In, elem_of_map_to_list. apply lookup_insert_eq.
Qed.

(** ** Listing bookings *)

(** What the development assumes of [sort('-createdAt')]: it reorders. *)
Hypothesis sort_createdAt_desc_reorders :
  forall l, sort_createdAt_desc l ≡ₚ l.

Lemma elem_of_sort_createdAt_desc kv l :
  kv ∈ sort_createdAt_desc l <-> kv ∈ l.
Proof.
  rewrite !list_elem_of_In. split; apply Permutation_in.
  - apply sort_createdAt_desc_reorders.
  - symmetry. apply sort_createdAt_desc_reorders.
Qed.

(** X17. [getMyBookings] shows a customer all the bookings made in their name,
    cancelled ones included, each with the title, date and location of its
    event ([None] when the event was deleted), and no booking of anybody
    else. *)
Theorem getMyBookings_own_bookings user_id db :
  exists l,
    getMyBookings user_id db = ((200, my_bookings l), db)
    /\ (forall id b p,
         (id, b, p) ∈ l <->
         bookings db !! id = Some b /\ customer b = user_id
         /\ p = populate_event db b)
    /\ length l
       = length (List.filter (fun kv => bool_decide (customer kv.2 = user_id))
                   (map_to_list (bookings db))).
Proof.
  eexists. split; [reflexivity |]. split.
  - intros id b p.
    change (map ?f ?l) with (f <$> l).
    rewrite list_elem_of_fmap. split.
    + intros ([id' b'] & [= -> -> ->] & Hin).
      apply elem_of_sort_createdAt_desc, list_elem_of_In, filter_In in Hin
        as [Hin Hc].
      apply list_elem_of_In, elem_of_map_to_list in Hin.
      apply bool_decide_eq_true_1 in Hc. auto.
    + intros (Hb & Hc & ->). exists (id, b). split; [reflexivity |].
      apply elem_of_sort_createdAt_desc, list_elem_of_In, filter_In. split.
      * apply list_elem_of_In, elem_of_map_to_list. exact Hb.
      * apply bool_decide_eq_true_2. exact Hc.
  - rewrite length_map. apply Permutation_length.
    apply sort_createdAt_desc_reorders.
Qed.


(** ** Processing jobs by hand *)

Lemma process_confirmations_Some pending db :
  (forall id b,
     (id, b) ∈ pending ->
     is_Some (bookings db !! id) /\ is_Some (events db !! event b)) ->
  process_confirmations pending db
  = Some (map (fun _ => (true, "Booking confirmation sent")) pending).
Proof.
  induction pending as [| [id b] pending IH]; intros Hall; simpl;
    [reflexivity |].
  destruct (Hall id b) as [[b0 Hb] [e He]]; [left |].
  unfold processBookingConfirmation; simpl. rewrite He, Hb.
  rewrite IH; [reflexivity |].
  intros id' b' Hin. apply Hall. right. exact Hin.
Qed.

Lemma process_confirmations_None pending db id b :
  (id, b) ∈ pending -> events db !! event b = None ->
  process_confirmations pending db = None.
Proof.
  induction pending as [| [id' b'] pending IH]; intros Hin He; simpl.
  - inversion Hin.
  - apply elem_of_cons in Hin as [[= <- <-] | Hin].
    + rewrite He. reflexivity.
    + destruct (events db !! event b'); [| reflexivity].
      destruct (processBookingConfirmation _ db); [| reflexivity].
      rewrite IH by assumption. reflexivity.
Qed.

(** X19. [POST /api/process-jobs] with 'booking-confirmations' reports at most
    10 bookings: the number of confirmed bookings, capped at 10, when each
    of them still has its event; when there are at most 10 and the event of
    one was deleted, the answer is 500.  Any other job type but
    'event-notifications' is answered 400. *)
Theorem process_jobs_confirmations db :
  let confirmed :=
    List.filter
      (fun kv => bool_decide (booking_status kv.2 = BookingStatus.confirmed))
      (map_to_list (bookings db)) in
  ((forall id b,
      bookings db !! id = Some b ->
      booking_status b = BookingStatus.confirmed ->
      is_Some (events db !! event b)) ->
   exists results,
     process_jobs (Some "booking-confirmations") db
     = ((200,
         confirmations_processed "Booking confirmations processed"
           (Nat.min 10 (length confirmed)) results), db)
     /\ length results = Nat.min 10 (length confirmed)
     /\ Forall (fun r => r = (true, "Booking confirmation sent")) results)
  /\ (forall id b,
       bookings db !! id = Some b ->
       booking_status b = BookingStatus.confirmed ->
       events db !! event b = None ->
       (length confirmed <= 10)%nat ->
       process_jobs (Some "booking-confirmations") db
       = ((500, jobs_error "Error processing jobs"), db))
  /\ (forall jobType,
       jobType <> Some "booking-confirmations" ->
       jobType <> Some "event-notifications" ->
       process_jobs jobType db = ((400, jobs_message "Invalid job type"), db)).
Proof.
  simpl. split; [| split].
  - intros Hall. unfold process_jobs.
    rewrite bool_decide_eq_true_2 by reflexivity.
    rewrite process_confirmations_Some.
    + match goal with
      | |- context [confirmations_processed _ (length ?l) _] => exists l
      end.
      rewrite length_map, length_take.
      split; [reflexivity | split; [reflexivity |]].
      apply Forall_forall. intros r Hr.
      apply list_elem_of_In, in_map_iff in Hr as (? & <- & _). reflexivity.
    + intros id b Hin. apply subseteq_take in Hin.
      apply list_elem_of_In, filter_In in Hin as [Hin Hst].
      apply list_elem_of_In, elem_of_map_to_list in Hin.
      apply bool_decide_eq_true_1 in Hst. simpl in *. eauto.
  - intros id b Hb Hst He Hfew. unfold process_jobs.
    rewrite bool_decide_eq_true_2 by reflexivity.
    rewrite take_ge by exact Hfew.
    rewrite (process_confirmations_None _ db id b); [reflexivity | | exact He].
    apply list_elem_of_In, filter_In. split.
    + apply list_elem_of_In, elem_of_map_to_list. exact Hb.
    + apply bool_decide_eq_true_2. exact Hst.
  - intros jobType H1 H2. unfold process_jobs.
    rewrite !bool_decide_eq_false_2 by assumption. reflexivity.
Qed.

Lemma process_jobs_store jobType db : (process_jobs jobType db).2 = db.
Proof.
  unfold process_jobs.
  repeat case_bool_decide; simpl; try reflexivity.
  - destruct (process_confirmations _ db); reflexivity.
  - destruct (head _) as [[id e]|]; [| reflexivity].
    destruct (processEventNotification id db); reflexivity.
Qed.

(** X20. [POST /api/process-jobs] with 'event-notifications' never fails and
    never changes the store: without a published event it answers
    'No events to notify'; otherwise it reports, for one published event,
    the number of its confirmed and pending bookings. *)
Theorem process_jobs_notifications db :
  (process_jobs (Some "event-notifications") db).2 = db
  /\ (map_Forall (fun _ e => status e <> EventStatus.published) (events db) ->
      (process_jobs (Some "event-notifications") db).1
      = (200, jobs_message "No events to notify"))
  /\ (forall id e,
       events db !! id = Some e -> status e = EventStatus.published ->
       exists id' e',
         events db !! id' = Some e' /\ status e' = EventStatus.published
         /\ (process_jobs (Some "event-notifications") db).1
            = (200,
               notifications_processed "Event notifications processed"
                 (true,
                  "Event update notifications sent to "
                    +:+ pretty
                          (length
                             (List.filter
                                (fun kv =>
                                   holds_tickets id' kv.2)
                                (map_to_list (bookings db))))
                    +:+ " customers"))).
Proof.
  split; [apply process_jobs_store |].
  unfold process_jobs.
  rewrite bool_decide_eq_false_2 by discriminate.
  rewrite bool_decide_eq_true_2 by reflexivity.
  set (published_ :=
         List.filter
           (fun kv : string * Event =>
              bool_decide (status kv.2 = EventStatus.published))
           (map_to_list (events db))).
  assert (forall id e,
            (id, e) ∈ published_ <->
            events db !! id = Some e /\ status e = EventStatus.published)
    as Hmem.
  { intros id e. unfold published_.
    rewrite list_elem_of_In, filter_In, <- list_elem_of_In.
    rewrite elem_of_map_to_list, bool_decide_eq_true. reflexivity. }
  split.
  - intros Hnone. destruct published_ as [| [id e] l]; [reflexivity |].
    destruct (proj1 (Hmem id e)) as [He Hst]; [left |].
    exfalso. exact (Hnone _ _ He Hst).
  - intros id e He Hst.
    destruct published_ as [| [id' e'] l].
    + pose proof (proj2 (Hmem id e) (conj He Hst)) as Hin. inversion Hin.
    + destruct (proj1 (Hmem id' e')) as [He' Hst']; [left |].
      exists id', e'. split; [exact He' | split; [exact Hst' |]].
      simpl. unfold processEventNotification. rewrite He'. simpl.
      do 4 f_equal.
      assert (forall l : list (string * Booking),
                List.filter
                  (fun kv =>
                     bool_decide (event kv.2 = id')
                     && (bool_decide
                           (booking_status kv.2 = BookingStatus.confirmed)
                         || bool_decide
                              (booking_status kv.2 = BookingStatus.pending)))
                  l
                = List.filter (fun kv => holds_tickets id' kv.2) l) as ->;
        [| reflexivity].
      intros l0. apply filter_ext. intros [i b]. unfold holds_tickets. simpl.
      f_equal. destruct (booking_status b); reflexivity.
Qed.

(** ** Publishing and updating an event *)

(** X21. Publishing is idempotent: the organizer who publishes a second time is
    answered as the first time, and the store stays as the first call left
    it. *)
Theorem publishEvent_twice user_id id db e :
  events db !! id = Some e ->
  organizer e = user_id ->
  Event_validate e = true ->
  let once := publishEvent user_id id db in
  status <$> events once.2 !! id = Some EventStatus.published
  /\ publishEvent user_id id once.2 = once.
Proof.
  intros He Hown Hvalid; simpl.
  assert (publishEvent user_id id db
          = (res_json
               (message_event "Event published successfully" id
                  (set_status EventStatus.published e)),
             set_events
               (<[id := set_status EventStatus.published e]> (events db)) db))
    as ->.
  { unfold publishEvent. rewrite He.
    rewrite bool_decide_eq_false_2 by (intros Hne; apply Hne, Hown).
    rewrite (Event_save_Some id _ e); [reflexivity | exact Hvalid | exact He]. }
  simpl. rewrite lookup_insert_eq. split; [reflexivity |].
  unfold publishEvent; simpl. rewrite lookup_insert_eq.
  rewrite bool_decide_eq_false_2 by (intros Hne; apply Hne, Hown).
  erewrite Event_save_Some;
    [| exact Hvalid | simpl; apply lookup_insert_eq].
  simpl. rewrite insert_insert_eq. reflexivity.
Qed.

(** X22. [updateEvent] lets the organizer set the status to any of the three,
    whatever the current status and whatever bookings there are: the
    bookings stay as they are, and unless the new status is 'published',
    [bookTickets] then refuses the event. *)
Theorem updateEvent_sets_any_status user_id id db e st :
  events db !! id = Some e ->
  organizer e = user_id ->
  Event_validate e = true ->
  let body :=
    mkUpdateEventBody None None None None None None
      (Some (EventStatus.to_string st)) None in
  let updated := updateEvent user_id id body db in
  updated.1
  = res_json (message_event "Event updated successfully" id (set_status st e))
  /\ events updated.2 = <[id := set_status st e]> (events db)
  /\ bookings updated.2 = bookings db
  /\ (st <> EventStatus.published ->
      forall u request value new_id now rnd,
        bookingSchema_validate request = inr value -> eventId value = id ->
        bookTickets u request new_id now rnd updated.2
        = (res_status 400 (message "Event is not published"), updated.2)).
Proof.
  intros He Hown Hvalid; simpl.
  assert (updateEvent user_id id
            (mkUpdateEventBody None None None None None None
               (Some (EventStatus.to_string st)) None) db
          = (res_json
               (message_event "Event updated successfully" id
                  (set_status st e)),
             set_events (<[id := set_status st e]> (events db)) db)) as ->.
  { unfold updateEvent.
    assert (updateEventSchema_validate
              (mkUpdateEventBody None None None None None None
                 (Some (EventStatus.to_string st)) None)
            = inr (mkUpdateEventValue None None None None None None (Some st)
                     None None)) as ->
      by (destruct st; reflexivity).
    rewrite He.
    rewrite bool_decide_eq_false_2 by (intros Hne; apply Hne, Hown).
    simpl.
    assert (Object_assign e
              (mkUpdateEventValue None None None None None None (Some st)
                 None None) = set_status st e) as -> by reflexivity.
    rewrite (Event_save_Some id _ e); [reflexivity | exact Hvalid | exact He]. }
  simpl. repeat split.
  intros Hst u request value new_id now rnd Hbody Hid.
  unfold bookTickets; simpl. rewrite Hbody, Hid, lookup_insert_eq. simpl.
  rewrite bool_decide_eq_true_2 by exact Hst. reflexivity.
Qed.

(** X23. An update without any field is accepted from the organizer and changes
    nothing. *)
Theorem updateEvent_without_fields user_id id db e :
  events db !! id = Some e ->
  organizer e = user_id ->
  Event_validate e = true ->
  updateEvent user_id id
    (mkUpdateEventBody None None None None None None None None) db
  = (res_json (message_event "Event updated successfully" id e), db).
Proof.
  intros He Hown Hvalid. unfold updateEvent.
  assert (updateEventSchema_validate
            (mkUpdateEventBody None None None None None None None None)
          = inr (mkUpdateEventValue None None None None None None None None
                   None)) as -> by reflexivity.
  rewrite He.
  rewrite bool_decide_eq_false_2 by (intros Hne; apply Hne, Hown).
  simpl.
  assert (Object_assign e
            (mkUpdateEventValue None None None None None None None None None)
          = e) as -> by (destruct e; reflexivity).
  rewrite (Event_save_Some id e e); [| exact Hvalid | exact He].
  rewrite insert_id by exact He.
  destruct db; reflexivity.
Qed.

(** ** Two calls of [bookTickets] that take turns *)

Lemma reference_taken_insert r i b (m : gmap string Booking) :
  m !! i = None -> bookingReference b <> r -> reference_taken r m = false ->
  reference_taken r (<[i := b]> m) = false.
Proof.
  unfold reference_taken. intros Hi Hne Hr.
  apply bool_decide_eq_false_1 in Hr. apply bool_decide_eq_false_2.
  intros Hex. apply map_Exists_insert in Hex as [Hb | Hex]; auto.
Qed.

(** X24. Two accepted requests for [q1] and [q2] tickets of one published event,
    each within the tickets available, whose calls take turns at every
    [await]: both are answered 201 and both bookings are stored, but the
    event is left with [availableTickets - q2]: the decrement of the first
    call is overwritten, whatever the quantities. *)
Theorem alternating_calls_lose_a_decrement
    db event_id e u1 u2 q1 q2 id1 id2 now1 now2 rnd1 rnd2 :
  let body1 := mkBookingBody (Some event_id) (Some q1) in
  let body2 := mkBookingBody (Some event_id) (Some q2) in
  let reference1 := generateBookingReference now1 rnd1 in
  let reference2 := generateBookingReference now2 rnd2 in
  let booking1 :=
    mkBooking u1 event_id q1 (times (ticketPrice e) q1)
      BookingStatus.confirmed reference1 in
  let booking2 :=
    mkBooking u2 event_id q2 (times (ticketPrice e) q2)
      BookingStatus.confirmed reference2 in
  bookingSchema_validate body1 = inr (mkBookingValue event_id q1) ->
  bookingSchema_validate body2 = inr (mkBookingValue event_id q2) ->
  events db !! event_id = Some e ->
  Event_validate e = true ->
  status e = EventStatus.published ->
  q1 <= availableTickets e -> q2 <= availableTickets e ->
  bookings db !! id1 = None -> bookings db !! id2 = None -> id1 <> id2 ->
  reference_taken reference1 (bookings db) = false ->
  reference_taken reference2 (bookings db) = false ->
  reference1 <> reference2 ->
  let outcome :=
    run_schedule [0; 1; 0; 1; 0; 1; 0; 1]%nat
      [ before_findById u1 body1 id1 now1 rnd1;
        before_findById u2 body2 id2 now2 rnd2 ] db in
  outcome.1 =
    [ responded
        (res_status 201
           (booking_created "Booking created successfully" id1 reference1 q1
              (times (ticketPrice e) q1) BookingStatus.confirmed));
      responded
        (res_status 201
           (booking_created "Booking created successfully" id2 reference2 q2
              (times (ticketPrice e) q2) BookingStatus.confirmed)) ]
  /\ bookings outcome.2 = <[id2 := booking2]> (<[id1 := booking1]> (bookings db))
  /\ events outcome.2 =
       <[event_id := set_availableTickets (availableTickets e - q2) e]>
         (events db).
Proof.
  intros body1 body2 reference1 reference2 booking1 booking2
    Hbody1 Hbody2 He Hvalid Hpub Hq1 Hq2 Hid1 Hid2 Hne Hr1 Hr2 Hrne.
  pose proof (proj1 (bookingSchema_validate_inr _ _) Hbody1)
    as (_ & _ & _ & Hq1' & _).
  pose proof (proj1 (bookingSchema_validate_inr _ _) Hbody2)
    as (_ & _ & _ & Hq2' & _).
  simpl in Hq1', Hq2'.
  assert (Booking_validate booking1 = true) as Hv1
    by (apply (new_booking_valid u1 (mkBookingValue event_id q1)); assumption).
  assert (Booking_validate booking2 = true) as Hv2
    by (apply (new_booking_valid u2 (mkBookingValue event_id q2)); assumption).
  assert (status e <> EventStatus.published -> False) as Hpub'
    by (intros Hx; apply Hx, Hpub).
  cbv zeta.
  cbn [run_schedule lookup list_lookup book_step insert list_insert].
  rewrite Hbody1. cbn [run_schedule lookup list_lookup book_step insert list_insert].
  rewrite Hbody2. cbn [run_schedule lookup list_lookup book_step insert list_insert eventId
                         value_quantity].
  rewrite He.
  rewrite !bool_decide_eq_false_2 by exact Hpub'.
  destruct (Z.ltb_spec (availableTickets e) q1); [lia |].
  destruct (Z.ltb_spec (availableTickets e) q2); [lia |].
  fold reference1 reference2. fold booking1 booking2.
  rewrite (Booking_insert_Some id1 booking1 db Hv1 Hid1 Hr1).
  cbn [run_schedule lookup list_lookup book_step insert list_insert eventId
         value_quantity].
  rewrite (Booking_insert_Some id2 booking2);
    [ | exact Hv2 | simpl; rewrite lookup_insert_ne by exact Hne; exact Hid2
      | simpl; apply reference_taken_insert; assumption ].
  cbn [run_schedule lookup list_lookup book_step insert list_insert eventId
         value_quantity].
  unfold Event_save_availableTickets.
  rewrite !Event_validate_set_availableTickets, Hvalid.
  simpl. rewrite He. simpl. rewrite lookup_insert_eq. simpl.
  rewrite insert_insert_eq.
  split; [reflexivity | split; reflexivity].
Qed.

End Handlers.

(** * The handlers at integer prices

    Prices in whole currency units: the product is that of [Z], the
    validators compare with 0, and [trim] strips ASCII white space. *)

Definition Z_min0 (p : Z) : bool := 0 <=? p.

Definition Z_Joi_min0 (p : Z) : option JoiError :=
  if (p <? - MAX_SAFE_INTEGER) || (MAX_SAFE_INTEGER <? p)
  then Some number_unsafe
  else if p <? 0 then Some number_min
  else None.

Fixpoint trim_start (s : string) : string :=
  match s with
  | String a s' => if Ascii.is_space a then trim_start s' else s
  | EmptyString => EmptyString
  end.

Definition trim_ascii (s : string) : string :=
  String.rev (trim_start (String.rev (trim_start s))).

Definition run_Z : list (Request (Num := Z)) -> Db -> Db :=
  run Z.mul Z_min0 Z_Joi_min0 trim_ascii.

Definition responses_Z : list (Request (Num := Z)) -> Db -> list Response :=
  responses Z.mul Z_min0 Z_Joi_min0 trim_ascii.

(** The event of the end-to-end scenario of the specification:
    10 tickets at 50. *)
Definition gala_body : CreateEventBody (Num := Z) :=
  mkCreateEventBody (Some "Gala") (Some "Annual gala") (Some 1798761600000)
    (Some "Town hall") (Some 10) (Some 50) None.

Definition gala (n : Z) (s : EventStatus.t) : Event (Num := Z) :=
  mkEvent "Gala" "Annual gala" "org1" 1798761600000 "Town hall" 10 n 50 s None.

Definition only_totalTickets (n : Z) : UpdateEventBody (Num := Z) :=
  mkUpdateEventBody None None None None (Some n) None None None.

Definition book (q : Z) : BookingBody := mkBookingBody (Some "e1") (Some q).

Definition draft_db : Db (Num := Z) :=
  run_Z [CreateEvent "org1" gala_body "e1"] empty_db.

Definition published_db : Db (Num := Z) :=
  run_Z [PublishEvent "org1" "e1"] draft_db.

Definition booked_db : Db (Num := Z) :=
  run_Z [BookTickets "cust1" (book 3) "b1" 1767225600000 "K3J9X0QWZ"]
    published_db.

(** The scenario itself: book 3 (7 left, price 150), cancel (10 left),
    book 10 (0 left), book 1 (refused, 0 remaining). *)
Definition scenario : list (Request (Num := Z)) :=
  [ CreateEvent "org1" gala_body "e1";
    PublishEvent "org1" "e1";
    BookTickets "cust1" (book 3) "b1" 1767225600000 "K3J9X0QWZ";
    CancelBooking "cust1" "b1";
    BookTickets "cust2" (book 10) "b2" 1767225600001 "P0L1M2N3B";
    BookTickets "cust1" (book 1) "b3" 1767225600002 "A1B2C3D4E" ].

(** The booking that [booked_db] holds. *)
Definition first_booking : Booking (Num := Z) :=
  mkBooking "cust1" "e1" 3 150 BookingStatus.confirmed
    "BK1767225600000K3J9X0QWZ".

(** A collection with a published event and a draft. *)
Definition two_events_db : Db (Num := Z) :=
  run_Z
    [ CreateEvent "org1" gala_body "e1";
      PublishEvent "org1" "e1";
      CreateEvent "org1" gala_body "e2" ] empty_db.

(** Five of the ten tickets are booked, then the organizer sets
    [totalTickets] to 2. *)
Definition shrinking : list (Request (Num := Z)) :=
  [ CreateEvent "org1" gala_body "e1";
    PublishEvent "org1" "e1";
    BookTickets "cust1" (book 5) "b1" 1767225600000 "K3J9X0QWZ";
    UpdateEvent "org1" "e1" (only_totalTickets 2) ].

(** An event with a single ticket, and two calls of [bookTickets] for it. *)
Definition last_ticket_body : CreateEventBody (Num := Z) :=
  mkCreateEventBody (Some "Recital") (Some "Piano recital")
    (Some 1798761600000) (Some "Chapel") (Some 1) (Some 50) None.

Definition last_ticket_db : Db (Num := Z) :=
  run_Z [CreateEvent "org1" last_ticket_body "e1"; PublishEvent "org1" "e1"]
    empty_db.

Definition first_call : BookTask (Num := Z) :=
  before_findById "cust1" (book 1) "b1" 1767225600000 "K3J9X0QWZ".

Definition second_call : BookTask (Num := Z) :=
  before_findById "cust2" (book 1) "b2" 1767225600000 "P0L1M2N3B".

(** The two calls take turns at every [await]. *)
Definition alternating : list nat := [0; 1; 0; 1; 0; 1; 0; 1]%nat.

(** The first call runs to its end before the second starts. *)
Definition one_after_the_other : list nat := [0; 0; 0; 0; 1; 1; 1; 1]%nat.

(** The answer 201 for one ticket at 50. *)
Definition created (id reference : string) : Response (Num := Z) :=
  res_status 201
    (booking_created "Booking created successfully" id reference 1 50
       BookingStatus.confirmed).

(** The organizer deletes the event that has a booking. *)
Definition event_deleted_db : Db (Num := Z) :=
  (deleteEvent "org1" "e1" booked_db).2.

(** An instance of [sort('-createdAt')]: the documents in reverse order. *)
Definition newest_first (l : list (string * Booking (Num := Z)))
  : list (string * Booking (Num := Z)) := rev l.

(** The event is deleted, then the customer cancels the booking. *)
Definition delete_then_cancel : list (Call (Num := Z)) :=
  [DeleteEvent "org1" "e1"; Served (CancelBooking "cust1" "b1")].

(** The organizer doubles the tickets, then the customer cancels. *)
Definition double_then_cancel : list (Request (Num := Z)) :=
  [UpdateEvent "org1" "e1" (only_totalTickets 20); CancelBooking "cust1" "b1"].

(** A title of one space. *)
Definition blank_title_body : CreateEventBody (Num := Z) :=
  mkCreateEventBody (Some " ") (Some "Annual gala") (Some 1798761600000)
    (Some "Town hall") (Some 10) (Some 50) None.

(** A body whose only field is the status 'cancelled'. *)
Definition only_cancelled : UpdateEventBody (Num := Z) :=
  mkUpdateEventBody None None None None None None (Some "cancelled") None.

Definition no_fields : UpdateEventBody (Num := Z) :=
  mkUpdateEventBody None None None None None None None None.

(** Two calls for 6 and 7 of the 10 tickets. *)
Definition call_for_six : BookTask (Num := Z) :=
  before_findById "cust1" (book 6) "b1" 1767225600000 "K3J9X0QWZ".

Definition call_for_seven : BookTask (Num := Z) :=
  before_findById "cust2" (book 7) "b2" 1767225600001 "P0L1M2N3B".




(** ** The Number operations of the instance *)

Lemma Z_Joi_min0_min0 p : Z_Joi_min0 p = None -> Z_min0 p = true.
Proof.
  unfold Z_Joi_min0, Z_min0. destruct (_ || _); [discriminate |].
  destruct (Z.ltb_spec p 0); [discriminate |]. intros _. apply Z.leb_le.
  assumption.
Qed.

Lemma Z_times_min0 p q :
  Z_min0 p = true -> 1 <= q -> Z_min0 (p * q) = true.
Proof. unfold Z_min0. rewrite !Z.leb_le. intros Hp Hq. apply Z.mul_nonneg_nonneg; lia. Qed.

Example scenario_responses :
  map code (responses_Z scenario empty_db) = [201; 200; 201; 200; 201; 400]
  /\ events (run_Z (take 3 scenario) empty_db) !! "e1"
     = Some (gala 7 EventStatus.published)
  /\ (totalPrice <$> bookings (run_Z (take 3 scenario) empty_db) !! "b1")
     = Some 150
  /\ events (run_Z (take 4 scenario) empty_db) !! "e1"
     = Some (gala 10 EventStatus.published)
  /\ events (run_Z (take 5 scenario) empty_db) !! "e1"
     = Some (gala 0 EventStatus.published)
  /\ last (responses_Z scenario empty_db)
     = Some (res_status 400
               (message "Not enough tickets available. Only 0 remaining")).
Proof. vm_compute. repeat split; reflexivity. Qed.

(** ** Instances of the theorems *)

Lemma bookTickets_confirmed_witness :
  let result :=
    bookTickets Z.mul Z_min0 "cust1" (book 3) "b1" 1767225600000 "K3J9X0QWZ"
      published_db in
  bookingSchema_validate (book 3) = inr (mkBookingValue "e1" 3)
  /\ events published_db !! "e1" = Some (gala 10 EventStatus.published)
  /\ code result.1 = 201
  /\ body result.1 =
       booking_created "Booking created successfully" "b1"
         "BK1767225600000K3J9X0QWZ" 3 150 BookingStatus.confirmed
  /\ (booking_status <$> bookings result.2 !! "b1")
     = Some BookingStatus.confirmed
  /\ (totalPrice <$> bookings result.2 !! "b1") = Some 150
  /\ (availableTickets <$> events result.2 !! "e1") = Some 7
  /\ events result.2 =
       <["e1" := gala 7 EventStatus.published]> (events published_db).
Proof.
  assert (bookingSchema_validate (book 3) = inr (mkBookingValue "e1" 3)) as Hbody
    by reflexivity.
  assert (events published_db !! "e1" = Some (gala 10 EventStatus.published))
    as He by (vm_compute; reflexivity).
  destruct (bookTickets_confirmed Z.mul Z_min0 Z_times_min0 "cust1" (book 3)
              (mkBookingValue "e1" 3) "b1" 1767225600000 "K3J9X0QWZ"
              published_db (gala 10 EventStatus.published) Hbody He)
    as [Hmade _];
    [reflexivity | reflexivity | simpl; lia | vm_compute; reflexivity |].
  destruct Hmade as (Hcode & Hres & _ & Hstatus & Hprice & Hev & Havail & _);
    [vm_compute; reflexivity |].
  cbv zeta.
  split; [exact Hbody | split; [exact He | split; [exact Hcode |]]].
  split; [exact Hres | split; [exact Hstatus | split; [exact Hprice |]]].
  split; [exact Havail | exact Hev].
Defined.

Lemma bookTickets_refused_witness :
  bookTickets Z.mul Z_min0 "cust1" (book 1) "b1" 1767225600000 "K3J9X0QWZ"
    draft_db
  = (res_status 400 (message "Event is not published"), draft_db)
  /\ bookTickets Z.mul Z_min0 "cust1" (book 8) "b2" 1767225600000 "P0L1M2N3B"
       booked_db
     = (res_status 400
          (message "Not enough tickets available. Only 7 remaining"),
        booked_db).
Proof.
  assert (events draft_db !! "e1" = Some (gala 10 EventStatus.draft)) as Hdraft
    by (vm_compute; reflexivity).
  assert (events booked_db !! "e1" = Some (gala 7 EventStatus.published))
    as Hbooked by (vm_compute; reflexivity).
  split.
  - destruct (bookTickets_refused Z.mul Z_min0 "cust1" (book 1) "b1"
                1767225600000 "K3J9X0QWZ" draft_db) as [Hrefused _].
    destruct (Hrefused (mkBookingValue "e1" 1) _ eq_refl Hdraft)
      as [Hnot_published _].
    apply Hnot_published. discriminate.
  - destruct (bookTickets_refused Z.mul Z_min0 "cust1" (book 8) "b2"
                1767225600000 "P0L1M2N3B" booked_db) as [Hrefused _].
    destruct (Hrefused (mkBookingValue "e1" 8) _ eq_refl Hbooked)
      as [_ Hnot_enough].
    apply Hnot_enough; [reflexivity | simpl; lia].
Defined.

Lemma cancelBooking_by_customer_witness :
  let result := cancelBooking Z_min0 "cust1" "b1" booked_db in
  bookings booked_db !! "b1" = Some first_booking
  /\ events booked_db !! "e1" = Some (gala 7 EventStatus.published)
  /\ code result.1 = 200
  /\ (booking_status <$> bookings result.2 !! "b1")
     = Some BookingStatus.cancelled
  /\ (availableTickets <$> events result.2 !! "e1") = Some 10
  /\ events result.2 =
       <["e1" := gala 10 EventStatus.published]> (events booked_db)
  /\ code (cancelBooking Z_min0 "cust1" "b1" result.2).1 = 400
  /\ (cancelBooking Z_min0 "cust1" "b1" result.2).2 = result.2.
Proof.
  assert (bookings booked_db !! "b1" = Some first_booking) as Hb
    by (vm_compute; reflexivity).
  assert (events booked_db !! "e1" = Some (gala 7 EventStatus.published))
    as He by (vm_compute; reflexivity).
  destruct (cancelBooking_by_customer Z_min0 "cust1" "b1" booked_db
              first_booking Hb eq_refl) as [_ Hcancel].
  destruct (Hcancel ltac:(discriminate) (gala 7 EventStatus.published)
              He eq_refl eq_refl)
    as (Hcode & _ & Hbk & Hstatus & _ & Hev & Havail & _).
  cbv zeta.
  split; [exact Hb | split; [exact He | split; [exact Hcode |]]].
  split; [exact Hstatus | split; [exact Havail | split; [exact Hev |]]].
  destruct (cancelBooking_by_customer Z_min0 "cust1" "b1"
              (cancelBooking Z_min0 "cust1" "b1" booked_db).2
              (set_booking_status BookingStatus.cancelled first_booking))
    as [Hagain _].
  - rewrite Hbk. apply lookup_insert_eq.
  - reflexivity.
  - destruct (Hagain eq_refl) as [Hcode400 Hsame].
    split; [exact Hcode400 |]. rewrite Hsame. reflexivity.
Defined.

Lemma book_then_cancel_witness :
  let booking_made :=
    bookTickets Z.mul Z_min0 "cust1" (book 3) "b1" 1767225600000 "K3J9X0QWZ"
      published_db in
  let booking_cancelled := cancelBooking Z_min0 "cust1" "b1" booking_made.2 in
  events published_db !! "e1" = Some (gala 10 EventStatus.published)
  /\ (availableTickets <$> events booking_made.2 !! "e1") = Some 7
  /\ (availableTickets <$> events booking_cancelled.2 !! "e1") = Some 10
  /\ events booking_cancelled.2 = events published_db.
Proof.
  assert (events published_db !! "e1" = Some (gala 10 EventStatus.published))
    as He by (vm_compute; reflexivity).
  destruct (book_then_cancel Z.mul Z_min0 Z_times_min0 "cust1" (book 3)
              (mkBookingValue "e1" 3) "b1" 1767225600000 "K3J9X0QWZ"
              published_db (gala 10 EventStatus.published) eq_refl He)
    as (_ & Hmade & _ & Hback & Hsame);
    [reflexivity | reflexivity | simpl; lia
     | vm_compute; reflexivity | vm_compute; reflexivity |].
  repeat split; assumption.
Defined.


Lemma updateEvent_totalTickets_witness :
  events booked_db !! "e1" = Some (gala 7 EventStatus.published)
  /\ exists e',
       (updateEvent Z_min0 Z_Joi_min0 trim_ascii "org1" "e1"
          (only_totalTickets 2) booked_db).1
       = res_status 200 (message_event "Event updated successfully" "e1" e')
       /\ totalTickets e' = 2
       /\ availableTickets e' = 7 + (2 - 10).
Proof.
  assert (events booked_db !! "e1" = Some (gala 7 EventStatus.published))
    as He by (vm_compute; reflexivity).
  split; [exact He |].
  destruct (updateEvent_totalTickets Z_min0 Z_Joi_min0 trim_ascii
              Z_Joi_min0_min0 "e1" booked_db _ He) as [Hupdate _].
  destruct (Hupdate "org1" (only_totalTickets 2) _ 2 eq_refl eq_refl eq_refl)
    as (e' & Hres & Htotal & Havailable);
    [discriminate | reflexivity | discriminate |].
  exists e'. rewrite Hres. repeat split; assumption.
Defined.

Lemma publishEvent_by_organizer_witness :
  events draft_db !! "e1" = Some (gala 10 EventStatus.draft)
  /\ exists e',
       publishEvent Z_min0 "org1" "e1" draft_db
       = (res_status 200 (message_event "Event published successfully" "e1" e'),
          set_events (<["e1" := e']> (events draft_db)) draft_db)
       /\ status e' = EventStatus.published
       /\ availableTickets e' = 10.
Proof.
  assert (events draft_db !! "e1" = Some (gala 10 EventStatus.draft)) as He
    by (vm_compute; reflexivity).
  split; [exact He |].
  destruct (publishEvent_by_organizer Z_min0 "org1" "e1" draft_db _ He
              eq_refl eq_refl)
    as (e' & Hres & Hstatus & _ & _ & _ & _ & _ & _ & Havailable & _).
  exists e'. split; [exact Hres | split; [exact Hstatus | exact Havailable]].
Defined.

Lemma getEvents_default_status_witness :
  exists found,
    getEvents trim_ascii (mkEventsQuery None None) two_events_db
    = (res_status 200 (event_documents found), two_events_db)
    /\ ("e1", gala 10 EventStatus.published) ∈ found
    /\ ("e2", gala 10 EventStatus.draft) ∉ found.
Proof.
  destruct (getEvents_default_status trim_ascii (mkEventsQuery None None)
              two_events_db
              eq_refl) as (found & Hres & Honly & Hall).
  exists found. split; [exact Hres | split].
  - apply (Hall eq_refl); [vm_compute; reflexivity | reflexivity].
  - intros Hin. apply Honly in Hin as [_ Hst]. discriminate Hst.
Defined.

(** The requests of the scenario never lower [totalTickets]; a seventh
    request doubles it. *)
Lemma run_inventory_bounds_witness :
  let rs := scenario ++ [UpdateEvent "org1" "e1" (only_totalTickets 20)] in
  events (run_Z rs empty_db) !! "e1"
  = Some (mkEvent "Gala" "Annual gala" "org1" 1798761600000 "Town hall"
            20 10 50 EventStatus.published None)
  /\ (10 <= 20 /\ 0 <= 10).
Proof.
  intros rs.
  assert (events (run_Z rs empty_db) !! "e1"
          = Some (mkEvent "Gala" "Annual gala" "org1" 1798761600000 "Town hall"
                    20 10 50 EventStatus.published None)) as He
    by (vm_compute; reflexivity).
  split; [exact He |].
  destruct (run_inventory_bounds Z.mul Z_min0 Z_Joi_min0 trim_ascii
              Z_Joi_min0_min0 rs _ _ He) as [Hupper Hlower].
  split; [exact Hupper |]. apply Hlower.
  subst rs. unfold scenario. cbn [app all_cover_booked covers_booked].
  repeat (split; [exact I |]). split; [| exact I].
  intros e n He1 Hn. vm_compute in He1. injection He1 as <-.
  injection Hn as <-. simpl. lia.
Defined.

(** ** An update below the number of booked tickets *)

(** C1. Every request of [shrinking] is accepted, and the event is left
    with -3 tickets available out of 2: the bounds
    [0 <= availableTickets <= totalTickets] do not hold in every store
    reached by createEvent, publishEvent, bookTickets and updateEvent
    requests served one after the other. *)
Theorem shrinking_goes_negative :
  map code (responses_Z shrinking empty_db) = [201; 200; 201; 200]
  /\ events (run_Z shrinking empty_db) !! "e1"
     = Some (mkEvent "Gala" "Annual gala" "org1" 1798761600000 "Town hall"
               2 (-3) 50 EventStatus.published None)
  /\ ~ (forall id e,
         events (run_Z shrinking empty_db) !! id = Some e ->
         0 <= availableTickets e <= totalTickets e).
Proof.
  assert (events (run_Z shrinking empty_db) !! "e1"
          = Some (mkEvent "Gala" "Annual gala" "org1" 1798761600000
                    "Town hall" 2 (-3) 50 EventStatus.published None)) as He
    by (vm_compute; reflexivity).
  split; [vm_compute; reflexivity | split; [exact He |]].
  intros Hbounds. apply Hbounds in He. simpl in He. lia.
Qed.

(** A booking request on that event is told that -3 tickets remain. *)
Example shrinking_then_book :
  (bookTickets Z.mul Z_min0 "cust2" (book 1) "b2" 1767225600001 "P0L1M2N3B"
     (run_Z shrinking empty_db)).1
  = res_status 400 (message "Not enough tickets available. Only -3 remaining").
Proof. vm_compute. reflexivity. Qed.

(** ** Two customers and the last ticket *)

(** C7. One ticket is available and two requests for one ticket each are
    in flight.  When the calls take turns at their [await] points both read
    [availableTickets = 1], both are answered 201 and two tickets are booked
    for an event of one ticket: the availability check does not hold
    concurrent bookings back. *)
Theorem interleaved_bookings_oversell :
  let outcome :=
    run_schedule Z.mul Z_min0 alternating [first_call; second_call]
      last_ticket_db in
  (availableTickets <$> events last_ticket_db !! "e1") = Some 1
  /\ outcome.1 =
       [ responded (created "b1" "BK1767225600000K3J9X0QWZ");
         responded (created "b2" "BK1767225600000P0L1M2N3B") ]
  /\ booked "e1" (bookings outcome.2) = 2
  /\ (totalTickets <$> events outcome.2 !! "e1") = Some 1
  /\ (availableTickets <$> events outcome.2 !! "e1") = Some 0.
Proof. vm_compute. repeat split; reflexivity. Qed.

(** Served one after the other, the second request is refused. *)
Example serialized_bookings_refuse :
  let outcome :=
    run_schedule Z.mul Z_min0 one_after_the_other [first_call; second_call]
      last_ticket_db in
  outcome.1 =
    [ responded (created "b1" "BK1767225600000K3J9X0QWZ");
      responded
        (res_status 400
           (message "Not enough tickets available. Only 0 remaining")) ]
  /\ booked "e1" (bookings outcome.2) = 1
  /\ (availableTickets <$> events outcome.2 !! "e1") = Some 0.
Proof. vm_compute. repeat split; reflexivity. Qed.

(** ** A booking whose event was deleted *)

Example view_and_cancel_after_deletion :
  code (getBookingById "org1" "b1" event_deleted_db).1 = 500
  /\ code (getBookingById "cust1" "b1" event_deleted_db).1 = 200
  /\ code (cancelBooking Z_min0 "cust1" "b1" event_deleted_db).1 = 500
  /\ (booking_status <$>
        bookings (cancelBooking Z_min0 "cust1" "b1" event_deleted_db).2 !! "b1")
     = Some BookingStatus.cancelled.
Proof. vm_compute. repeat split; reflexivity. Qed.

(** ** Validation comes first *)

(** A request for no ticket of a draft event is refused for its quantity,
    not for the status of the event. *)
Lemma zero_quantity_on_draft :
  let result :=
    bookTickets Z.mul Z_min0 "cust1" (book 0) "b1" 1767225600000 "K3J9X0QWZ"
      draft_db in
  events draft_db !! "e1" = Some (gala 10 EventStatus.draft)
  /\ result =
       (res_status 400
          (validation_message (mkValidationError "quantity" number_min)),
        draft_db)
  /\ body result.1 <> message "Event is not published".
Proof.
  cbv zeta. split; [vm_compute; reflexivity | split]; [reflexivity |].
  discriminate.
Qed.


(** The organizer sends [totalTickets: 0], which differs from the 10 of the
    event: the request is answered 400 and [availableTickets] stays 7, where
    the old value plus the difference is -3. *)
Lemma rejected_totalTickets_changes_nothing :
  let result :=
    updateEvent Z_min0 Z_Joi_min0 trim_ascii "org1" "e1" (only_totalTickets 0)
      booked_db in
  events booked_db !! "e1" = Some (gala 7 EventStatus.published)
  /\ code result.1 = 400
  /\ events result.2 !! "e1" = Some (gala 7 EventStatus.published)
  /\ 7 <> 7 + (0 - 10).
Proof.
  cbv zeta.
  assert (events booked_db !! "e1" = Some (gala 7 EventStatus.published)) as He
    by (vm_compute; reflexivity).
  split; [exact He | split; [reflexivity | split; [exact He | lia]]].
Qed.

(** ** A reference that is taken *)

(** The request is valid, the event is published and has 7 tickets for the
    2 asked for, but the reference drawn is that of the stored booking: the
    answer is 500, not 201, and no booking is made. *)
Lemma taken_reference_is_refused :
  let result :=
    bookTickets Z.mul Z_min0 "cust2" (book 2) "b2" 1767225600000 "K3J9X0QWZ"
      booked_db in
  bookingSchema_validate (book 2) = inr (mkBookingValue "e1" 2)
  /\ events booked_db !! "e1" = Some (gala 7 EventStatus.published)
  /\ bookings booked_db !! "b2" = None
  /\ (bookingReference <$> bookings booked_db !! "b1")
     = Some (generateBookingReference 1767225600000 "K3J9X0QWZ")
  /\ code result.1 = 500
  /\ code result.1 <> 201
  /\ result.2 = booked_db.
Proof.
  cbv zeta.
  assert (bookTickets Z.mul Z_min0 "cust2" (book 2) "b2" 1767225600000
            "K3J9X0QWZ" booked_db
          = (res_status 500 (error_message "Error booking tickets"), booked_db))
    as -> by (vm_compute; reflexivity).
  split; [reflexivity |].
  split; [vm_compute; reflexivity |].
  split; [vm_compute; reflexivity |].
  split; [vm_compute; reflexivity |].
  split; [reflexivity | split; [discriminate | reflexivity]].
Qed.

(** ** Cancelling a booking whose event was deleted *)

(** C4. The organizer deletes the event of a confirmed booking (200), then
    the customer cancels the booking: the answer is 500, not 200, although
    the booking has been saved as cancelled, and no event has received the
    three tickets; asked again, the answer is 400. *)
Theorem cancelBooking_of_deleted_event :
  let result := cancelBooking Z_min0 "cust1" "b1" event_deleted_db in
  events booked_db !! "e1" = Some (gala 7 EventStatus.published)
  /\ code (deleteEvent "org1" "e1" booked_db).1 = 200
  /\ bookings event_deleted_db !! "b1" = Some first_booking
  /\ code result.1 = 500
  /\ (booking_status <$> bookings result.2 !! "b1")
     = Some BookingStatus.cancelled
  /\ events result.2 = ∅
  /\ code (cancelBooking Z_min0 "cust1" "b1" result.2).1 = 400.
Proof.
  cbv zeta.
  split; [vm_compute; reflexivity |].
  split; [vm_compute; reflexivity |].
  split; [vm_compute; reflexivity |].
  split; [vm_compute; reflexivity |].
  split; [vm_compute; reflexivity |].
  split; [vm_compute; reflexivity |].
  vm_compute; reflexivity.
Qed.

(** * Instances of the further properties *)

Lemma newest_first_reorders l : newest_first l ≡ₚ l.
Proof. unfold newest_first. symmetry. apply Permutation_rev. Qed.

Lemma run_tickets_accounted_witness :
  events (run_Z (take 3 scenario) empty_db) !! "e1"
  = Some (gala 7 EventStatus.published)
  /\ booked "e1" (bookings (run_Z (take 3 scenario) empty_db)) = 10 - 7.
Proof.
  assert (events (run_Z (take 3 scenario) empty_db) !! "e1"
          = Some (gala 7 EventStatus.published)) as He
    by (vm_compute; reflexivity).
  split; [exact He |]. symmetry.
  exact (run_tickets_accounted Z.mul Z_min0 Z_Joi_min0 trim_ascii
           Z_Joi_min0_min0 (take 3 scenario) "e1" _ He).
Defined.

Lemma run_bookings_have_their_event_witness :
  bookings (run_Z (take 3 scenario) empty_db) !! "b1" = Some first_booking
  /\ is_Some (events (run_Z (take 3 scenario) empty_db) !! "e1").
Proof.
  assert (bookings (run_Z (take 3 scenario) empty_db) !! "b1"
          = Some first_booking) as Hb
    by (vm_compute; reflexivity).
  split; [exact Hb |].
  exact (proj1 (run_bookings_have_their_event Z.mul Z_min0 Z_Joi_min0
                  trim_ascii Z_Joi_min0_min0 (take 3 scenario) "b1" _ Hb)).
Defined.

Lemma bookings_only_get_cancelled_witness :
  bookings booked_db !! "b1" = Some first_booking
  /\ exists b',
       bookings
         (serve_all Z.mul Z_min0 Z_Joi_min0 trim_ascii delete_then_cancel
            booked_db) !! "b1" = Some b'
       /\ customer b' = "cust1"
       /\ quantity b' = 3
       /\ bookingReference b' = "BK1767225600000K3J9X0QWZ".
Proof.
  assert (bookings booked_db !! "b1" = Some first_booking) as Hb
    by (vm_compute; reflexivity).
  split; [exact Hb |].
  destruct (bookings_only_get_cancelled Z.mul Z_min0 Z_Joi_min0 trim_ascii
              delete_then_cancel booked_db "b1" _ Hb)
    as (b' & Hb' & Hcustomer & _ & Hquantity & _ & Hreference & _).
  exists b'.
  split; [exact Hb' | split; [exact Hcustomer | split; [exact Hquantity |]]].
  exact Hreference.
Defined.

Lemma organizer_never_changes_witness :
  events booked_db !! "e1" = Some (gala 7 EventStatus.published)
  /\ exists e',
       events (run_Z double_then_cancel booked_db) !! "e1" = Some e'
       /\ organizer e' = "org1".
Proof.
  assert (events booked_db !! "e1" = Some (gala 7 EventStatus.published))
    as He by (vm_compute; reflexivity).
  split; [exact He |].
  exact (organizer_never_changes Z.mul Z_min0 Z_Joi_min0 trim_ascii
           double_then_cancel booked_db "e1" _ He).
Defined.

Lemma booking_handlers_frame_witness :
  events booked_db !! "e1" = Some (gala 7 EventStatus.published)
  /\ exists n,
       events
         (bookTickets Z.mul Z_min0 "cust2" (book 2) "b2" 1767225600001
            "P0L1M2N3B" booked_db).2 !! "e1"
       = Some (set_availableTickets n (gala 7 EventStatus.published)).
Proof.
  assert (events booked_db !! "e1" = Some (gala 7 EventStatus.published))
    as He by (vm_compute; reflexivity).
  split; [exact He |].
  destruct (booking_handlers_frame Z.mul Z_min0 booked_db "e1") as [Hbook _].
  destruct (Hbook "cust2" (book 2) "b2" 1767225600001 "P0L1M2N3B")
    as (_ & _ & Hsome).
  exact (Hsome _ He).
Defined.

Lemma deleteEvent_by_organizer_witness :
  events booked_db !! "e1" = Some (gala 7 EventStatus.published)
  /\ (deleteEvent "org1" "e1" booked_db).1
     = res_status 200 (message "Event deleted successfully")
  /\ bookings event_deleted_db = bookings booked_db
  /\ (getEventById "e1" event_deleted_db).1
     = (404, event_message "Event not found")
  /\ (publishEvent Z_min0 "org1" "e1" event_deleted_db).1
     = res_status 404 (message "Event not found").
Proof.
  assert (events booked_db !! "e1" = Some (gala 7 EventStatus.published))
    as He by (vm_compute; reflexivity).
  split; [exact He |].
  destruct (deleteEvent_by_organizer Z.mul Z_min0 Z_Joi_min0 trim_ascii
              newest_first "org1" "e1" booked_db _ He eq_refl)
    as (Hres & _ & Hbookings & _ & Hget & _ & Hpublish & _).
  split; [exact Hres | split; [exact Hbookings | split; [exact Hget |]]].
  exact (Hpublish "org1").
Defined.

Lemma cancelBooking_after_deleteEvent_witness :
  let cancelled_ := cancelBooking Z_min0 "cust1" "b1" event_deleted_db in
  events booked_db !! "e1" = Some (gala 7 EventStatus.published)
  /\ bookings booked_db !! "b1" = Some first_booking
  /\ code cancelled_.1 = 500
  /\ bookings cancelled_.2 =
       <["b1" := set_booking_status BookingStatus.cancelled first_booking]>
         (bookings booked_db)
  /\ events cancelled_.2 = delete "e1" (events booked_db).
Proof.
  assert (events booked_db !! "e1" = Some (gala 7 EventStatus.published))
    as He by (vm_compute; reflexivity).
  assert (bookings booked_db !! "b1" = Some first_booking) as Hb
    by (vm_compute; reflexivity).
  cbv zeta. split; [exact He | split; [exact Hb |]].
  destruct (cancelBooking_after_deleteEvent Z_min0 "org1" "cust1" "b1"
              booked_db (gala 7 EventStatus.published) first_booking
              He eq_refl Hb eq_refl ltac:(discriminate) eq_refl)
    as (Hcode & Hbookings & Hevents & _).
  split; [exact Hcode | split; [exact Hbookings | exact Hevents]].
Defined.

Lemma getBookingById_shown_to_witness :
  bookings booked_db !! "b1" = Some first_booking
  /\ code (getBookingById "org1" "b1" booked_db).1 = 200
  /\ (getBookingById "org1" "b1" booked_db).1
     = res_json (booking_document "b1" first_booking).
Proof.
  assert (events booked_db !! "e1" = Some (gala 7 EventStatus.published))
    as He by (vm_compute; reflexivity).
  assert (bookings booked_db !! "b1" = Some first_booking) as Hb
    by (vm_compute; reflexivity).
  split; [exact Hb |].
  destruct (getBookingById_shown_to "org1" "b1" booked_db _ Hb)
    as (_ & Hiff & Hbody).
  assert (code (getBookingById "org1" "b1" booked_db).1 = 200) as Hcode.
  { apply Hiff. right. exists (gala 7 EventStatus.published).
    split; [exact He | reflexivity]. }
  split; [exact Hcode | exact (Hbody Hcode)].
Defined.


Lemma bookTickets_all_or_nothing_witness :
  let db := run_Z (take 3 scenario) empty_db in
  let result :=
    bookTickets Z.mul Z_min0 "cust2" (book 8) "b2" 1767225600001 "P0L1M2N3B"
      db in
  map_Forall (fun _ e => Event_validate Z_min0 e = true) (events db)
  /\ ((code result.1 = 201
       /\ bookings db !! "b2" = None
       /\ (exists b, bookings result.2 = <["b2" := b]> (bookings db))
       /\ length (jobs result.2) = S (length (jobs db)))
      \/ ((code result.1 = 400 \/ code result.1 = 404 \/ code result.1 = 500)
          /\ result.2 = db)).
Proof.
  cbv zeta.
  assert (map_Forall (fun _ e => Event_validate Z_min0 e = true)
            (events (run_Z (take 3 scenario) empty_db))) as Hvalid.
  { apply (consistent_valid_events Z_min0).
    apply (run_consistent Z.mul Z_min0 Z_Joi_min0 trim_ascii Z_Joi_min0_min0).
    apply empty_db_consistent. }
  split; [exact Hvalid |].
  exact (bookTickets_all_or_nothing Z.mul Z_min0 "cust2" (book 8) "b2"
           1767225600001 "P0L1M2N3B" _ Hvalid).
Defined.

Lemma blank_title_is_a_server_error_witness :
  trim_ascii " " = ""
  /\ createEvent Z_min0 Z_Joi_min0 trim_ascii "org1" blank_title_body "e2"
       booked_db
     = (res_status 500 (error_message "Error creating event"), booked_db).
Proof.
  split; [reflexivity |].
  destruct (blank_title_is_a_server_error Z_min0 Z_Joi_min0 trim_ascii "org1"
              "e1" blank_title_body booked_db) as [Hcreate _].
  apply (Hcreate
           (mkCreateEventValue " " "Annual gala" 1798761600000 "Town hall"
              10 50 None));
    reflexivity.
Defined.

Lemma created_event_is_listed_after_publication_witness :
  let made := createEvent Z_min0 Z_Joi_min0 trim_ascii "org1" gala_body "e1"
                empty_db in
  code made.1 = 201
  /\ (exists e,
        (getEventById "e1" made.2).1 = (200, event_document "e1" e)
        /\ status e = EventStatus.draft)
  /\ code (publishEvent Z_min0 "org1" "e1" made.2).1 = 200.
Proof.
  cbv zeta.
  assert (code (createEvent Z_min0 Z_Joi_min0 trim_ascii "org1" gala_body
                  "e1" empty_db).1 = 201) as Hcode
    by (vm_compute; reflexivity).
  split; [exact Hcode |].
  destruct (created_event_is_listed_after_publication Z_min0 Z_Joi_min0
              trim_ascii "org1" gala_body "e1" empty_db Hcode)
    as (Hread & _ & Hpublish & _).
  split; [exact Hread | exact Hpublish].
Defined.

Lemma getMyBookings_own_bookings_witness :
  exists l,
    getMyBookings newest_first "cust1" booked_db
    = ((200, my_bookings l), booked_db)
    /\ length l = 1%nat.
Proof.
  destruct (getMyBookings_own_bookings newest_first newest_first_reorders
              "cust1" booked_db) as (l & Hres & _ & Hlength).
  exists l. split; [exact Hres |].
  etrans; [exact Hlength |]. vm_compute. reflexivity.
Defined.


Lemma process_jobs_confirmations_witness :
  bookings event_deleted_db !! "b1" = Some first_booking
  /\ events event_deleted_db !! "e1" = None
  /\ process_jobs (Some "booking-confirmations") event_deleted_db
     = ((500, jobs_error "Error processing jobs"), event_deleted_db).
Proof.
  assert (bookings event_deleted_db !! "b1" = Some first_booking) as Hb
    by (vm_compute; reflexivity).
  assert (events event_deleted_db !! "e1" = None) as He
    by (vm_compute; reflexivity).
  split; [exact Hb | split; [exact He |]].
  destruct (process_jobs_confirmations event_deleted_db) as (_ & Hgone & _).
  apply (Hgone "b1" first_booking Hb eq_refl He).
  vm_compute. repeat constructor.
Defined.

Lemma process_jobs_notifications_witness :
  events booked_db !! "e1" = Some (gala 7 EventStatus.published)
  /\ exists sent,
       (process_jobs (Some "event-notifications") booked_db).1
       = (200,
          notifications_processed "Event notifications processed"
            (true, sent)).
Proof.
  assert (events booked_db !! "e1" = Some (gala 7 EventStatus.published))
    as He by (vm_compute; reflexivity).
  split; [exact He |].
  destruct (process_jobs_notifications booked_db) as (_ & _ & Hsome).
  destruct (Hsome _ _ He eq_refl) as (id' & e' & _ & _ & Hres).
  eexists. exact Hres.
Defined.

Lemma publishEvent_twice_witness :
  events draft_db !! "e1" = Some (gala 10 EventStatus.draft)
  /\ publishEvent Z_min0 "org1" "e1"
       (publishEvent Z_min0 "org1" "e1" draft_db).2
     = publishEvent Z_min0 "org1" "e1" draft_db.
Proof.
  assert (events draft_db !! "e1" = Some (gala 10 EventStatus.draft)) as He
    by (vm_compute; reflexivity).
  split; [exact He |].
  exact (proj2 (publishEvent_twice Z_min0 "org1" "e1" draft_db _ He eq_refl
                  eq_refl)).
Defined.

Lemma updateEvent_sets_any_status_witness :
  let updated :=
    updateEvent Z_min0 Z_Joi_min0 trim_ascii "org1" "e1" only_cancelled
      booked_db in
  events booked_db !! "e1" = Some (gala 7 EventStatus.published)
  /\ events updated.2
     = <["e1" := gala 7 EventStatus.cancelled]> (events booked_db)
  /\ bookings updated.2 = bookings booked_db
  /\ bookTickets Z.mul Z_min0 "cust2" (book 1) "b2" 1767225600001 "P0L1M2N3B"
       updated.2
     = (res_status 400 (message "Event is not published"), updated.2).
Proof.
  assert (events booked_db !! "e1" = Some (gala 7 EventStatus.published))
    as He by (vm_compute; reflexivity).
  cbv zeta. split; [exact He |].
  destruct (updateEvent_sets_any_status Z.mul Z_min0 Z_Joi_min0 trim_ascii
              "org1" "e1" booked_db _ EventStatus.cancelled He eq_refl eq_refl)
    as (_ & Hevents & Hbookings & Hrefused).
  split; [exact Hevents | split; [exact Hbookings |]].
  apply (Hrefused ltac:(discriminate) "cust2" (book 1)
           (mkBookingValue "e1" 1));
    reflexivity.
Defined.

Lemma updateEvent_without_fields_witness :
  events booked_db !! "e1" = Some (gala 7 EventStatus.published)
  /\ updateEvent Z_min0 Z_Joi_min0 trim_ascii "org1" "e1" no_fields booked_db
     = (res_json
          (message_event "Event updated successfully" "e1"
             (gala 7 EventStatus.published)),
        booked_db).
Proof.
  assert (events booked_db !! "e1" = Some (gala 7 EventStatus.published))
    as He by (vm_compute; reflexivity).
  split; [exact He |].
  exact (updateEvent_without_fields Z_min0 Z_Joi_min0 trim_ascii "org1" "e1"
           booked_db _ He eq_refl eq_refl).
Defined.

Lemma alternating_calls_lose_a_decrement_witness :
  let outcome :=
    run_schedule Z.mul Z_min0 alternating [call_for_six; call_for_seven]
      published_db in
  events published_db !! "e1" = Some (gala 10 EventStatus.published)
  /\ map code
       (omap (fun t => match t with responded r => Some r | _ => None end)
          outcome.1) = [201; 201]
  /\ events outcome.2
     = <["e1" := gala 3 EventStatus.published]> (events published_db).
Proof.
  assert (events published_db !! "e1" = Some (gala 10 EventStatus.published))
    as He by (vm_compute; reflexivity).
  cbv zeta. split; [exact He |].
  destruct (alternating_calls_lose_a_decrement Z.mul Z_min0 Z_times_min0
              published_db "e1" (gala 10 EventStatus.published)
              "cust1" "cust2" 6 7 "b1" "b2" 1767225600000 1767225600001
              "K3J9X0QWZ" "P0L1M2N3B")
    as (Hanswers & _ & Hevents);
    [ reflexivity | reflexivity | exact He | reflexivity | reflexivity
    | simpl; lia | simpl; lia
    | vm_compute; reflexivity | vm_compute; reflexivity | discriminate
    | vm_compute; reflexivity | vm_compute; reflexivity
    | intros Heq; vm_compute in Heq; discriminate Heq | ].
  split; [| exact Hevents].
  unfold alternating, call_for_six, call_for_seven, book.
  rewrite Hanswers. reflexivity.
Defined.
